(** * EclipseLauncher: the launch-session and configuration manager

    A shallow embedding of the [MinecraftLauncher] class of [main.py]:
    the configuration document, the launch history, the progress
    callbacks and the launch flow, with the file system, the clock, the
    window host and the installation library as explicit state and
    oracles. *)

From Stdlib Require Import ZArith String Ascii List Bool Lia DecimalString.
From Stdlib Require Import Floats.SpecFloat.
From stdpp Require Import gmap strings list fin_maps.

Set Warnings "-register-all".

Local Open Scope string_scope.
Local Open Scope Z_scope.

(** ** Python values *)

(** The values that travel through the launcher: what [json.load] and the
    JavaScript bridge produce, without floating-point numbers.  A nested
    object keeps its insertion order. *)
Inductive value :=
| VNone
| VBool (b : bool)
| VInt (n : Z)
| VStr (s : string)
| VList (l : list value)
| VDict (d : list (string * value)).

(** [bool(v)], as used by [not v]. *)
Definition truthy (v : value) : bool :=
  match v with
  | VNone => false
  | VBool b => b
  | VInt n => negb (n =? 0)
  | VStr s => negb (String.eqb s "")
  | VList l => negb (bool_decide (l = []))
  | VDict d => negb (bool_decide (d = []))
  end.

(** [type(v).__name__], which appears in the text of an [AttributeError]. *)
Definition type_name (v : value) : string :=
  match v with
  | VNone => "NoneType"
  | VBool _ => "bool"
  | VInt _ => "int"
  | VStr _ => "str"
  | VList _ => "list"
  | VDict _ => "dict"
  end.

(** [str(n)] for an [int]. *)
Definition str_int (n : Z) : string := NilZero.string_of_int (Z.to_int n).

(** The double-quote and single-quote characters of the f-strings. *)
Definition dq : string := String (ascii_of_nat 34) EmptyString.
Definition sq : string := String (ascii_of_nat 39) EmptyString.

(** ** Binary64 arithmetic of [int((a / b) * 100)] *)

Module Float64.

Definition prec : Z := 53.
Definition emax : Z := 1024.

(** An [int] as the exact operand of a true division. *)
Definition of_int (n : Z) : spec_float :=
  match n with
  | Z0 => S754_zero false
  | Zpos p => S754_finite false p 0
  | Zneg p => S754_finite true p 0
  end.

(** [a / b] on two [int]s, [b <> 0]: the correctly rounded quotient, or
    [OverflowError] when it does not fit a float. *)
Definition truediv (a b : Z) : string + spec_float :=
  match SFdiv prec emax (of_int a) (of_int b) with
  | S754_infinity _ => inl "integer division result too large for a float"
  | q => inr q
  end.

Definition mul (x y : spec_float) : spec_float := SFmul prec emax x y.

(** The float literal obtained from the [int] constant [100]. *)
Definition hundred : spec_float := binary_normalize prec emax 100 0 false.

(** [int(x)]: truncation toward zero. *)
Definition to_int (x : spec_float) : string + Z :=
  match x with
  | S754_zero _ => inr 0
  | S754_finite s m e =>
      let a := match e with
               | Zneg k => Z.shiftr (Zpos m) (Zpos k)
               | _ => Z.shiftl (Zpos m) e
               end in
      inr (if s then - a else a)
  | S754_infinity _ => inl "cannot convert float infinity to integer"
  | S754_nan => inl "cannot convert float NaN to integer"
  end.

End Float64.

(** [int((current / maximum) * 100)] for [maximum <> 0]. *)
Definition percentage_of (current maximum : Z) : string + Z :=
  match Float64.truediv current maximum with
  | inl e => inl e
  | inr q => Float64.to_int (Float64.mul q Float64.hundred)
  end.

Arguments percentage_of : simpl never.
Arguments str_int : simpl never.

(** ** The launcher object and its surroundings *)

(** What [launcher_config.json] holds, seen through [open] and
    [json.load]: an object, some other JSON value, or a file that cannot
    be read or parsed. *)
Inductive document :=
| DObject (m : gmap string value)
| DOther (v : value)
| DInvalid.

(** The [options] dictionary handed to [get_minecraft_command]. *)
Record options := Options {
  opt_username : string;
  opt_uuid : string;
  opt_token : string;
  jvmArguments : list string
}.

(** Everything the launcher does to the outside, in the order it happens. *)
Inductive event :=
| EvJs (code : string)                         (* window.evaluate_js(code) *)
| EvPrint (text : string)                      (* print(text) *)
| EvWrite (doc : gmap string value)            (* json.dump into the config file *)
| EvRemove                                     (* os.remove(config_file) *)
| EvThread (version username ram : value)      (* thread.start() *)
| EvInstall (version : string)                 (* install_minecraft_version *)
| EvCommand (version : string) (o : options)   (* get_minecraft_command *)
| EvPopen (cmd : list string).                 (* subprocess.Popen *)

(** The attributes of [self] followed by the part of the world the methods
    touch.  [write_error] and [remove_error] say whether the operating
    system refuses the next [open(.., 'w')] or [os.remove]; [ticks] counts
    the readings of the clock. *)
Record launcher := Launcher {
  window : bool;
  max_value : Z;
  current_progress : Z;
  config : gmap string value;
  disk : option document;
  write_error : option string;
  remove_error : option string;
  ticks : nat;
  trace : list event
}.

Definition with_window (w : bool) (st : launcher) : launcher :=
  Launcher w (max_value st) (current_progress st) (config st) (disk st)
           (write_error st) (remove_error st) (ticks st) (trace st).

Definition with_max_value (m : Z) (st : launcher) : launcher :=
  Launcher (window st) m (current_progress st) (config st) (disk st)
           (write_error st) (remove_error st) (ticks st) (trace st).

Definition with_current_progress (p : Z) (st : launcher) : launcher :=
  Launcher (window st) (max_value st) p (config st) (disk st)
           (write_error st) (remove_error st) (ticks st) (trace st).

Definition with_config (c : gmap string value) (st : launcher) : launcher :=
  Launcher (window st) (max_value st) (current_progress st) c (disk st)
           (write_error st) (remove_error st) (ticks st) (trace st).

Definition with_disk (d : option document) (st : launcher) : launcher :=
  Launcher (window st) (max_value st) (current_progress st) (config st) d
           (write_error st) (remove_error st) (ticks st) (trace st).

Definition with_ticks (n : nat) (st : launcher) : launcher :=
  Launcher (window st) (max_value st) (current_progress st) (config st) (disk st)
           (write_error st) (remove_error st) n (trace st).

Definition emit (e : event) (st : launcher) : launcher :=
  Launcher (window st) (max_value st) (current_progress st) (config st) (disk st)
           (write_error st) (remove_error st) (ticks st) (trace st ++ [e]).

(** ** Methods as state transformers that may raise *)

(** A call either returns a value or raises an [Exception] whose [str] is
    [e]; both leave a state behind. *)
Inductive outcome (A : Type) :=
| Return (a : A) (st : launcher)
| Raise (e : string) (st : launcher).
Arguments Return {A} a st.
Arguments Raise {A} e st.

Definition M (A : Type) : Type := launcher -> outcome A.

Definition ret {A} (a : A) : M A := fun st => Return a st.
Definition raise {A} (e : string) : M A := fun st => Raise e st.
Definition bind {A B} (c : M A) (k : A -> M B) : M B :=
  fun st => match c st with
            | Return a st' => k a st'
            | Raise e st' => Raise e st'
            end.
Definition try_except {A} (body : M A) (handler : string -> M A) : M A :=
  fun st => match body st with
            | Return a st' => Return a st'
            | Raise e st' => handler e st'
            end.
Definition modify (f : launcher -> launcher) : M unit := fun st => Return tt (f st).
Definition gets {A} (f : launcher -> A) : M A := fun st => Return (f st) st.
Definition when (b : bool) (c : M unit) : M unit := if b then c else ret tt.

Declare Scope py_scope.
Delimit Scope py_scope with py.
Notation "x <- c ;; k" := (bind c (fun x => k))
  (at level 100, c at next level, right associativity) : py_scope.
Notation "c ;; k" := (bind c (fun _ => k))
  (at level 100, right associativity) : py_scope.
Local Open Scope py_scope.

(** The state a call leaves behind, whichever way it ends. *)
Definition state_of {A} (o : outcome A) : launcher :=
  match o with Return _ st => st | Raise _ st => st end.

(** ** ConfigStore *)

Definition default_config : gmap string value :=
  <["last_username" := VStr ""]>
  (<["ram_allocation" := VInt 2]>
  (<["theme" := VStr "purple"]>
  (<["dark_mode" := VBool true]>
  (<["tutorial_shown" := VBool false]>
  (<["launch_history" := VList []]> ∅))))).

(** The six keys of [default_config], in the order of the source. *)
Definition default_keys : list string :=
  ["last_username"; "ram_allocation"; "theme"; "dark_mode";
   "tutorial_shown"; "launch_history"].

(** The body of [load_config] as a function of the file:
    [{**default_config, **json.load(f)}] when the file holds an object;
    the bare [except] turns an unreadable file, a parse error and the
    [TypeError] of unpacking a non-mapping into the defaults. *)
Definition load_from (d : option document) : gmap string value :=
  match d with
  | Some (DObject stored) => stored ∪ default_config
  | Some (DOther _) => default_config
  | Some DInvalid => default_config
  | None => default_config
  end.

Definition load_config : M (gmap string value) :=
  gets (fun st => load_from (disk st)).

Definition save_config : M unit :=
  fun st => match write_error st with
            | None => Return tt (emit (EvWrite (config st))
                                   (with_disk (Some (DObject (config st))) st))
            | Some e => Return tt (emit (EvPrint ("Error saving config: " +:+ e)) st)
            end.

Definition get_config : M (gmap string value) := gets config.

Definition set_item (k : string) (v : value) : M unit :=
  modify (fun st => with_config (<[k := v]> (config st)) st).

Definition update_username (username : value) : M unit :=
  set_item "last_username" username ;; save_config.

Definition update_ram (ram : value) : M unit :=
  set_item "ram_allocation" ram ;; save_config.

Definition update_theme (theme : value) : M unit :=
  set_item "theme" theme ;; save_config.

Definition update_dark_mode (dark_mode : value) : M unit :=
  set_item "dark_mode" dark_mode ;; save_config.

Definition mark_tutorial_complete : M unit :=
  set_item "tutorial_shown" (VBool true) ;; save_config.

(** [__init__] in a world whose file system is [d]; the window is attached
    afterwards by the main program. *)
Definition init (d : option document) (werr rerr : option string) : launcher :=
  Launcher false 0 0 (load_from d) d werr rerr 0%nat [].

(** The [{"success": .., "message": ..}] dictionary of the UI-facing API. *)
Definition reply (success : bool) (message : string) : value :=
  VDict [("success", VBool success); ("message", VStr message)].

Definition os_remove : M unit :=
  fun st => match remove_error st with
            | Some e => Raise e st
            | None => Return tt (emit EvRemove (with_disk None st))
            end.

Definition reset_launcher_data : M value :=
  try_except
    (exists_ <- gets (fun st => bool_decide (disk st <> None)) ;;
     when exists_ os_remove ;;
     c <- load_config ;;
     modify (with_config c) ;;
     ret (reply true "Launcher data reset successfully!"))
    (fun e => ret (reply false ("Error: " +:+ e))).

(** ** ProgressBridge *)

Definition evaluate_js (code : string) : M unit := modify (emit (EvJs code)).

Definition update_status_js (status : string) : string :=
  "updateStatus(" +:+ dq +:+ status +:+ dq +:+ ")".

Definition update_progress_js (percentage current maximum : Z) : string :=
  "updateProgress(" +:+ str_int percentage +:+ ", " +:+ str_int current
    +:+ ", " +:+ str_int maximum +:+ ")".

Definition set_status (status : string) : M unit :=
  w <- gets window ;;
  when w (evaluate_js (update_status_js status)).

Definition set_progress (progress : Z) : M unit :=
  modify (with_current_progress progress) ;;
  m <- gets max_value ;;
  if 0 <? m then
    c <- gets current_progress ;;
    match percentage_of c m with
    | inl e => raise e
    | inr percentage =>
        w <- gets window ;;
        when w (evaluate_js (update_progress_js percentage c m))
    end
  else ret tt.

Definition set_max (new_max : Z) : M unit := modify (with_max_value new_max).

(** ** The outside of the launcher *)

(** One call made by the installation library on the [callback] dictionary. *)
Inductive callback :=
| CbStatus (status : string)
| CbProgress (progress : Z)
| CbMax (new_max : Z).

(** The collaborators whose code is not the launcher's: [json.dumps], the
    text of [datetime.now().isoformat()] at the n-th reading, and the
    installation library, whose install call makes some callbacks and then
    returns or raises, and whose command builder returns a command or
    raises; [Popen] may raise too. *)
Record externals := Externals {
  json_dumps : value -> string;
  isoformat_now : nat -> string;
  install_minecraft_version : string -> list callback * option string;
  get_minecraft_command : string -> options -> string + list string;
  popen : list string -> option string
}.

Section Launcher.

Variable ext : externals.

(** ** HistoryLog *)

Definition history_entry (version username timestamp : string) : value :=
  VDict [("version", VStr version); ("username", VStr username);
         ("timestamp", VStr timestamp)].

Definition load_history_js (history : value) : string :=
  "loadHistory(" +:+ json_dumps ext history +:+ ")".

(** [self.config['launch_history'].insert(0, entry)] followed by the
    slice [[:10]]: a [KeyError] when the key is gone, an [AttributeError]
    when the stored value is no list. *)
Definition add_launch_history (version username : string) : M unit :=
  now <- gets (fun st => isoformat_now ext (ticks st)) ;;
  modify (fun st => with_ticks (S (ticks st)) st) ;;
  let entry := history_entry version username now in
  c <- gets config ;;
  match c !! "launch_history" with
  | None => raise (sq +:+ "launch_history" +:+ sq)
  | Some (VList h) =>
      let inserted := entry :: h in
      let kept := take 10 inserted in
      set_item "launch_history" (VList kept) ;;
      save_config ;;
      w <- gets window ;;
      when w (evaluate_js (load_history_js (VList kept)))
  | Some v =>
      raise (sq +:+ type_name v +:+ sq +:+ " object has no attribute "
               +:+ sq +:+ "insert" +:+ sq)
  end.

(** ** LaunchSession *)

Definition run_callback (cb : callback) : M unit :=
  match cb with
  | CbStatus s => set_status s
  | CbProgress p => set_progress p
  | CbMax m => set_max m
  end.

Fixpoint run_callbacks (cbs : list callback) : M unit :=
  match cbs with
  | [] => ret tt
  | cb :: rest => run_callback cb ;; run_callbacks rest
  end.

(** The call into the library: the callbacks it makes run in the
    caller's thread, an exception of a callback leaves the library as it
    is, and the library's own exception comes last. *)
Definition install (version : string) : M unit :=
  modify (emit (EvInstall version)) ;;
  let '(cbs, failure) := install_minecraft_version ext version in
  run_callbacks cbs ;;
  match failure with
  | Some e => raise e
  | None => ret tt
  end.

Definition jvm_arguments (ram : Z) : list string :=
  ["-Xmx" +:+ str_int ram +:+ "G";
   "-Xms" +:+ str_int (Z.max 1 (ram / 2)) +:+ "G"].

Definition launch_options (username : string) (ram : Z) : options :=
  Options username "" "" (jvm_arguments ram).

Definition command (version : string) (o : options) : M (list string) :=
  modify (emit (EvCommand version o)) ;;
  match get_minecraft_command ext version o with
  | inl e => raise e
  | inr cmd => ret cmd
  end.

Definition spawn (cmd : list string) : M unit :=
  modify (emit (EvPopen cmd)) ;;
  match popen ext cmd with
  | Some e => raise e
  | None => ret tt
  end.

(** The [try] block of [install_and_launch]. *)
Definition install_and_launch_body (version username : string) (ram : Z) : M unit :=
  set_status ("Installing Minecraft " +:+ version +:+ "...") ;;
  install version ;;
  set_status ("Minecraft " +:+ version +:+ " installed successfully!") ;;
  let o := launch_options username ram in
  set_status ("Launching Minecraft " +:+ version +:+ "...") ;;
  minecraft_command <- command version o ;;
  spawn minecraft_command ;;
  set_status "Minecraft launched successfully!" ;;
  add_launch_history version username.

(** The worker for a version and a username that are strings and a RAM
    amount that is an [int], which is what the page submits. *)
Definition install_and_launch (version username : string) (ram : Z) : M unit :=
  try_except (install_and_launch_body version username ram)
             (fun e => set_status ("Error: " +:+ e)).

End Launcher.

(** [data.get(key)] and [data.get(key, default)]. *)
Definition dict_get (data : gmap string value) (key : string) (dflt : value) : value :=
  default dflt (data !! key).

Definition validation_message : string :=
  "Please select a version and enter a username".

(** The handler called from JavaScript.  Starting the thread is the event
    [EvThread]; the worker itself is [install_and_launch]. *)
Definition launch (data : gmap string value) : M unit :=
  let version := dict_get data "version" VNone in
  let username := dict_get data "username" VNone in
  let ram := dict_get data "ram" (VInt 2) in
  if negb (truthy version) || negb (truthy username) then
    set_status validation_message
  else
    update_username username ;;
    update_ram ram ;;
    modify (emit (EvThread version username ram)).

(** ** Repeated history appends *)

(** The launches [(version, username)] of [reqs] recorded one after the
    other. *)
Fixpoint append_all (ext : externals) (reqs : list (string * string)) : M unit :=
  match reqs with
  | [] => ret tt
  | (version, username) :: rest =>
      add_launch_history ext version username ;; append_all ext rest
  end.

(** The entries those appends create, oldest first, when the clock has
    been read [n] times before. *)
Fixpoint stamped (ext : externals) (n : nat) (reqs : list (string * string)) : list value :=
  match reqs with
  | [] => []
  | (version, username) :: rest =>
      history_entry version username (isoformat_now ext n) :: stamped ext (S n) rest
  end.

(** ** Vocabulary of the properties *)

(** A request field that is empty or absent: the key is missing, or it
    carries [None] (a JavaScript [null]) or the empty string. *)
Definition blank (o : option value) : Prop :=
  o = None \/ o = Some VNone \/ o = Some (VStr "").

(** Progress reports made one after the other. *)
Fixpoint set_progress_all (vs : list Z) : M unit :=
  match vs with
  | [] => ret tt
  | v :: rest => set_progress v ;; set_progress_all rest
  end.

(** The worker up to the return of the install call. *)
Definition install_phase (ext : externals) (version : string) : M unit :=
  set_status ("Installing Minecraft " +:+ version +:+ "...") ;;
  install ext version.

Definition is_install (e : event) : bool :=
  match e with EvInstall _ => true | _ => false end.

(** How many times the install call of the library has been made. *)
Definition installs (tr : list event) : nat := length (filter is_install tr).

(** The worker from the return of the install call to the end of the
    [try] block. *)
Definition launch_phase (ext : externals) (version username : string) (ram : Z) : M unit :=
  set_status ("Minecraft " +:+ version +:+ " installed successfully!") ;;
  set_status ("Launching Minecraft " +:+ version +:+ "...") ;;
  minecraft_command <- command ext version (launch_options username ram) ;;
  spawn ext minecraft_command ;;
  set_status "Minecraft launched successfully!" ;;
  add_launch_history ext version username.

(** The library raises [e] out of the flow started in [st]: out of the
    install call, or, the install call having returned, out of the command
    builder. *)
Definition library_raises (ext : externals) (version username : string) (ram : Z)
    (st : launcher) (e : string) : Prop :=
  (exists s1, install_phase ext version st = Raise e s1) \/
  (exists s1, install_phase ext version st = Return tt s1 /\
              get_minecraft_command ext version (launch_options username ram) = inl e).

(** A computation respects a relation between states when every run, ended
    by a return or by an exception, relates the state before to the state
    after. *)
Definition respects (R : launcher -> launcher -> Prop) {A} (c : M A) : Prop :=
  forall st, R st (state_of (c st)).

(** The trace only grows. *)
Definition extends (st st1 : launcher) : Prop :=
  exists tr, trace st1 = (trace st ++ tr)%list.

(** Configuration, file, window, clock and failure modes are as before. *)
Definition same_store (st st1 : launcher) : Prop :=
  config st1 = config st /\ disk st1 = disk st /\ window st1 = window st /\
  write_error st1 = write_error st /\ remove_error st1 = remove_error st /\
  ticks st1 = ticks st.

(** No further install call has been made. *)
Definition same_installs (st st1 : launcher) : Prop :=
  installs (trace st1) = installs (trace st).

(** What [save_config] leaves in the trace in state [st] for the
    configuration [c]: the write, or the printed error. *)
Definition save_event (st : launcher) (c : gmap string value) : event :=
  match write_error st with
  | None => EvWrite c
  | Some e => EvPrint ("Error saving config: " +:+ e)
  end.

(** Every configuration key but the history is as before. *)
Definition keeps_settings (st st1 : launcher) : Prop :=
  forall k, k <> "launch_history" -> config st1 !! k = config st !! k.

(** The exact percentage [floor(100 * v / m)]. *)
Definition exact_percentage (v m : Z) : Z := (100 * v) / m.

(** The percentage the code computes is the exact one or one below it. *)
Definition percentage_close (v m : Z) : bool :=
  match percentage_of v m with
  | inr p => (exact_percentage v m - 1 <=? p) && (p <=? exact_percentage v m)
  | inl _ => false
  end.

(** ** Sample worlds *)

Definition sample_ext : externals :=
  Externals (fun _ => "[]") (fun n => "t" +:+ str_int (Z.of_nat n))
    (fun _ => ([CbStatus "Downloading"; CbMax 100; CbProgress 29], None))
    (fun v o => inr ("java" :: jvmArguments o ++ [v]))
    (fun _ => None).

Definition failing_ext : externals :=
  Externals (fun _ => "[]") (fun _ => "2024-01-01T00:00:00")
    (fun _ => ([CbMax 10; CbProgress 5], Some "Version not found"))
    (fun v o => inr ["java"])
    (fun _ => None).

Definition sample_state : launcher := with_window true (init None None None).

Definition sample_stored : gmap string value :=
  <["theme" := VStr "blue"]> (<["custom" := VInt 7]> ∅).

Definition sample_requests : list (string * string) :=
  map (fun n => ("1.20." +:+ str_int (Z.of_nat n), "Notch")) (seq 1 11).

Definition sample_data : gmap string value :=
  <["version" := VStr "1.20.1"]>
  (<["username" := VStr "Notch"]> (<["ram" := VInt 4]> ∅)).

Definition blank_version_data : gmap string value :=
  <["version" := VStr ""]>
  (<["username" := VStr "Notch"]> (<["ram" := VInt 2]> ∅)).

(** ** The remaining UI-facing methods *)

(** One element of the list [get_available_versions] returns; the library
    gives every element an ['id'] and a ['type']. *)
Record version_info := VersionInfo { vid : string; vtype : string }.

(** [[v['id'] for v in av_versions if v['type'] == kind]]. *)
Definition ids_of_type (kind : string) (av_versions : list version_info) : list string :=
  map vid (List.filter (fun v => String.eqb (vtype v) kind) av_versions).

(** The dictionary [get_versions] builds from the library's list, its four
    keys in the order of the source. *)
Definition get_versions (av_versions : list version_info) : list (string * list string) :=
  [("release", ids_of_type "release" av_versions);
   ("snapshot", ids_of_type "snapshot" av_versions);
   ("old_beta", ids_of_type "old_beta" av_versions);
   ("old_alpha", ids_of_type "old_alpha" av_versions)].

(** The three directories [delete_minecraft_instances] removes, in the
    order in which it removes them. *)
Inductive instance_dir := Versions | Libraries | Assets.

(** Which of them exist under the launcher directory. *)
Record instances := Instances {
  versions_dir : bool;
  libraries_dir : bool;
  assets_dir : bool
}.

Definition dir_exists (d : instance_dir) (fs : instances) : bool :=
  match d with
  | Versions => versions_dir fs
  | Libraries => libraries_dir fs
  | Assets => assets_dir fs
  end.

Definition remove_dir (d : instance_dir) (fs : instances) : instances :=
  match d with
  | Versions => Instances false (libraries_dir fs) (assets_dir fs)
  | Libraries => Instances (versions_dir fs) false (assets_dir fs)
  | Assets => Instances (versions_dir fs) (libraries_dir fs) false
  end.

(** [if os.path.exists(d): shutil.rmtree(d)], where [refused d] is the
    error with which the system refuses to remove [d], if it does. *)
Definition rmtree_if_exists (refused : instance_dir -> option string)
    (d : instance_dir) (fs : instances) : string + instances :=
  if dir_exists d fs then
    match refused d with
    | Some e => inl e
    | None => inr (remove_dir d fs)
    end
  else inr fs.

(** The reply and the directories left behind. *)
Definition delete_minecraft_instances (refused : instance_dir -> option string)
    (fs : instances) : value * instances :=
  match rmtree_if_exists refused Versions fs with
  | inl e => (reply false ("Error: " +:+ e), fs)
  | inr fs1 =>
      match rmtree_if_exists refused Libraries fs1 with
      | inl e => (reply false ("Error: " +:+ e), fs1)
      | inr fs2 =>
          match rmtree_if_exists refused Assets fs2 with
          | inl e => (reply false ("Error: " +:+ e), fs2)
          | inr fs3 =>
              (reply true "All Minecraft instances deleted successfully!", fs3)
          end
      end
  end.

(** What [requests.get] gives: an exception, or a response with its status
    code and what [r.json()] makes of its body. *)
Inductive http_reply :=
| HttpFailure (e : string)
| HttpResponse (status_code : Z) (body : document).

(** The exceptions of the lookup. *)
Inductive lookup_error :=
| RequestError (e : string)       (* raised by requests.get *)
| JSONDecodeError                 (* r.json() on a body that is not JSON *)
| TypeError                       (* ["id"] on a value that is no object *)
| KeyError.                       (* ["id"] on an object without that key *)

(** [r.json()["id"]]: the object's value, a [KeyError] when the key is
    missing, a [TypeError] when the body is a JSON value other than an
    object ([DOther] holds no object), a decode error when it is no JSON. *)
Definition json_id (body : document) : lookup_error + value :=
  match body with
  | DObject m =>
      match m !! "id" with
      | Some v => inr v
      | None => inl KeyError
      end
  | DOther _ => inl TypeError
  | DInvalid => inl JSONDecodeError
  end.

(** [MinecraftLauncher.get_uuid] on the reply to its request: the bare
    [except] turns every exception into [None]. *)
Definition get_uuid (r : http_reply) : value :=
  let attempt : lookup_error + value :=
    match r with
    | HttpFailure e => inl (RequestError e)
    | HttpResponse status_code body =>
        if status_code =? 200 then json_id body else inr VNone
    end in
  match attempt with
  | inr v => v
  | inl _ => VNone
  end.

Module Tests.

(** [get_uuid] of [tests.py]: the lines it prints and the value it returns
    or the exception that leaves it. *)
Definition get_uuid (r : http_reply) : list string * (lookup_error + value) :=
  match r with
  | HttpFailure e => ([], inl (RequestError e))
  | HttpResponse status_code body =>
      if status_code =? 200 then ([], json_id body)
      else (["Invalid username!"], inr VNone)
  end.

End Tests.

(** ** Further vocabulary *)

(** A configuration that has every key of [default_config]. *)
Definition complete (c : gmap string value) : Prop :=
  forall k, k ∈ default_keys -> is_Some (c !! k).

(** Completeness of the configuration is kept. *)
Definition keeps_complete (st st1 : launcher) : Prop :=
  complete (config st) -> complete (config st1).

Definition is_thread (e : event) : bool :=
  match e with EvThread _ _ _ => true | _ => false end.

(** How many worker threads have been started. *)
Definition threads (tr : list event) : nat := length (List.filter is_thread tr).

(** The JavaScript call made when a window is attached. *)
Definition js_if (w : bool) (code : string) : list event :=
  if w then [EvJs code] else [].

Definition is_command (e : event) : bool :=
  match e with EvCommand _ _ => true | _ => false end.

Definition is_spawn (e : event) : bool :=
  match e with EvPopen _ => true | _ => false end.

(** How many times the command builder has been called, and how many
    times [Popen]. *)
Definition commands (tr : list event) : nat := length (List.filter is_command tr).
Definition spawns (tr : list event) : nat := length (List.filter is_spawn tr).

(** No further command has been requested and no further process spawned. *)
Definition same_launch_calls (st st1 : launcher) : Prop :=
  commands (trace st1) = commands (trace st) /\
  spawns (trace st1) = spawns (trace st).

(** A stored history that [insert] cannot be called on. *)
Definition not_a_list (v : value) : Prop :=
  match v with VList _ => False | _ => True end.

(** The versions whose type is none of the four the page offers. *)
Definition other_versions (av_versions : list version_info) : list version_info :=
  List.filter (fun v => negb (String.eqb (vtype v) "release" || String.eqb (vtype v) "snapshot"
                          || String.eqb (vtype v) "old_beta" || String.eqb (vtype v) "old_alpha"))
    av_versions.


(** A float that is not a negative number. *)
Definition nonneg_float (x : spec_float) : Prop :=
  match x with
  | S754_finite true _ _ => False
  | _ => True
  end.

(** The reply of a successful [delete_minecraft_instances]. *)
Definition instances_deleted : value :=
  reply true "All Minecraft instances deleted successfully!".

(** ** Further sample worlds *)

Definition spawn_failing_ext : externals :=
  Externals (fun _ => "[]") (fun _ => "2024-01-01T00:00:00")
    (fun _ => ([], None))
    (fun v o => inr ["java"])
    (fun _ => Some "[Errno 2] No such file or directory").

Definition broken_history_state : launcher :=
  with_window true
    (init (Some (DObject (<["launch_history" := VNone]> ∅))) None None).

Definition refuse_libraries (d : instance_dir) : option string :=
  match d with Libraries => Some "Access is denied" | _ => None end.

(** * Properties *)

Ltac unfold_py :=
  unfold install_and_launch, install_and_launch_body, add_launch_history,
    launch, update_username, update_ram, reset_launcher_data, os_remove,
    set_progress, set_status, set_max, evaluate_js, save_config, load_config,
    get_config, set_item, try_except, bind, ret, raise, modify, gets, when in *.

(** ** ConfigStore *)

Lemma default_config_keys (k : string) :
  k ∈ default_keys -> is_Some (default_config !! k).
Proof.
  unfold default_keys. rewrite !elem_of_cons, elem_of_nil.
  intros H. repeat (destruct H as [-> | H]; [vm_compute; eauto |]). tauto.
Qed.

Lemma load_from_object_stored (stored : gmap string value) (k : string) (v : value) :
  stored !! k = Some v -> load_from (Some (DObject stored)) !! k = Some v.
Proof. intros H. simpl. by apply lookup_union_Some_l. Qed.

Lemma load_from_object_missing (stored : gmap string value) (k : string) :
  stored !! k = None ->
  load_from (Some (DObject stored)) !! k = default_config !! k.
Proof. intros H. simpl. by apply lookup_union_r. Qed.

(** C1: when the configuration file holds a JSON object, [load_config]
    returns the stored object merged over the defaults: every stored key
    keeps its stored value, every key the file lacks has exactly what
    [default_config] has for it, and so each of the six default keys is
    present, with its default value when the file does not supply it. *)
Theorem load_config_merges_over_defaults (stored : gmap string value) (st : launcher) :
  disk st = Some (DObject stored) ->
  exists cfg : gmap string value,
    load_config st = Return cfg st /\
    (forall k v, stored !! k = Some v -> cfg !! k = Some v) /\
    (forall k, stored !! k = None -> cfg !! k = default_config !! k) /\
    (forall k, k ∈ default_keys -> is_Some (cfg !! k)) /\
    (forall k, k ∈ default_keys -> stored !! k = None ->
               is_Some (default_config !! k) /\ cfg !! k = default_config !! k).
Proof.
  intros Hdisk. exists (load_from (Some (DObject stored))).
  split; [unfold_py; by rewrite Hdisk |].
  split; [apply load_from_object_stored |].
  split; [apply load_from_object_missing |].
  split.
  - intros k Hk. destruct (stored !! k) as [v |] eqn:E.
    + rewrite (load_from_object_stored _ _ _ E). eauto.
    + rewrite (load_from_object_missing _ _ E). by apply default_config_keys.
  - intros k Hk E. split; [by apply default_config_keys |].
    by apply load_from_object_missing.
Qed.

Lemma load_config_merges_over_defaults_witness :
  exists cfg : gmap string value,
    load_config (with_disk (Some (DObject sample_stored)) sample_state)
      = Return cfg (with_disk (Some (DObject sample_stored)) sample_state) /\
    cfg !! "theme" = Some (VStr "blue") /\
    cfg !! "custom" = Some (VInt 7) /\
    cfg !! "ram_allocation" = Some (VInt 2).
Proof.
  destruct (load_config_merges_over_defaults sample_stored
              (with_disk (Some (DObject sample_stored)) sample_state))
    as (cfg & Hrun & Hstored & Hmissing & _); [reflexivity |].
  exists cfg. split; [exact Hrun |].
  split; [apply Hstored; reflexivity |].
  split; [apply Hstored; reflexivity |].
  rewrite Hmissing; reflexivity.
Defined.

(** ** HistoryLog *)

Lemma take_app_take {A} (n : nat) (l k : list A) :
  take n (l ++ take n k) = take n (l ++ k).
Proof.
  rewrite !take_app, take_take. f_equal. f_equal. lia.
Qed.

(** One append: the new entry goes to the front, ten entries are kept, the
    clock has been read once and the other keys are as before. *)
Lemma add_launch_history_step (ext : externals) (version username : string)
    (st : launcher) (h : list value) :
  config st !! "launch_history" = Some (VList h) ->
  exists st',
    add_launch_history ext version username st = Return tt st' /\
    config st' = <["launch_history" :=
                    VList (take 10 (history_entry version username
                                      (isoformat_now ext (ticks st)) :: h))]> (config st) /\
    ticks st' = S (ticks st).
Proof.
  intros Hh. unfold_py. simpl. rewrite Hh.
  destruct st as [w m p c d werr rerr n tr]; simpl in *.
  destruct werr, w; simpl; eauto.
Qed.

Lemma append_all_history (ext : externals) (reqs : list (string * string)) :
  forall (st : launcher) (h : list value),
    config st !! "launch_history" = Some (VList h) ->
    exists st',
      append_all ext reqs st = Return tt st' /\
      config st' !! "launch_history" =
        Some (VList (match reqs with
                     | [] => h
                     | _ => take 10 (rev (stamped ext (ticks st) reqs) ++ h)
                     end)).
Proof.
  induction reqs as [| [version username] rest IH]; intros st h Hh.
  - exists st. by split.
  - destruct (add_launch_history_step ext version username st h Hh)
      as (st1 & Hrun & Hcfg & Hticks).
    assert (Hh1 : config st1 !! "launch_history" =
                  Some (VList (take 10 (history_entry version username
                                          (isoformat_now ext (ticks st)) :: h)))).
    { rewrite Hcfg. apply lookup_insert_eq. }
    destruct (IH st1 _ Hh1) as (st2 & Hrun2 & Hcfg2).
    exists st2. split.
    + simpl. unfold bind. by rewrite Hrun.
    + rewrite Hcfg2, Hticks. f_equal. f_equal.
      destruct rest as [| r rest'].
      * reflexivity.
      * rewrite take_app_take. cbn [stamped rev].
        by rewrite <- app_assoc.
Qed.

Lemma length_stamped (ext : externals) (reqs : list (string * string)) :
  forall n, length (stamped ext n reqs) = length reqs.
Proof.
  induction reqs as [| [v u] rest IH]; intros n; simpl; [done | by rewrite IH].
Qed.

(** C2: from any stored history sequence, eleven appends leave exactly ten
    entries: the entries of the last ten appends, newest first, the first
    append's entry and the whole earlier history gone; and a single append
    puts the new entry in front and keeps the first ten. *)
Theorem eleven_appends_keep_ten_newest (ext : externals)
    (reqs : list (string * string)) (st : launcher) (h : list value) :
  config st !! "launch_history" = Some (VList h) ->
  length reqs = 11%nat ->
  (forall version username, exists st1,
      add_launch_history ext version username st = Return tt st1 /\
      config st1 !! "launch_history" =
        Some (VList (take 10 (history_entry version username
                                (isoformat_now ext (ticks st)) :: h)))) /\
  exists st' kept,
    append_all ext reqs st = Return tt st' /\
    config st' !! "launch_history" = Some (VList kept) /\
    length kept = 10%nat /\
    kept = rev (drop 1 (stamped ext (ticks st) reqs)).
Proof.
  intros Hh Hlen. split.
  - intros version username.
    destruct (add_launch_history_step ext version username st h Hh)
      as (st1 & Hrun & Hcfg & _).
    exists st1. split; [done |]. rewrite Hcfg. apply lookup_insert_eq.
  - destruct (append_all_history ext reqs st h Hh) as (st' & Hrun & Hcfg).
    pose proof (length_stamped ext reqs (ticks st)) as Hs.
    destruct reqs as [| r rest]; [done |].
    exists st', (rev (drop 1 (stamped ext (ticks st) (r :: rest)))).
    split; [done |].
    assert (Hkept : take 10 (rev (stamped ext (ticks st) (r :: rest)) ++ h)
                    = rev (drop 1 (stamped ext (ticks st) (r :: rest)))).
    { destruct r as [v u]. cbn [stamped drop rev] in *.
      simpl in Hs, Hlen.
      rewrite drop_0, <- app_assoc, take_app_le by (rewrite length_rev; lia).
      apply take_ge. rewrite length_rev. lia. }
    split; [by rewrite Hcfg, Hkept |].
    split; [| done].
    rewrite length_rev, length_drop. lia.
Qed.

Lemma eleven_appends_keep_ten_newest_witness :
  exists st' kept,
    append_all sample_ext sample_requests sample_state = Return tt st' /\
    config st' !! "launch_history" = Some (VList kept) /\
    length kept = 10%nat /\
    kept = rev (drop 1 (stamped sample_ext 0 sample_requests)).
Proof.
  apply (eleven_appends_keep_ten_newest sample_ext sample_requests sample_state []);
    reflexivity.
Defined.

(** ** ProgressBridge *)

Lemma set_progress_without_max (v : Z) (st : launcher) :
  max_value st <= 0 ->
  set_progress v st = Return tt (with_current_progress v st).
Proof.
  intros Hm. unfold_py. simpl.
  destruct (0 <? max_value st) eqn:E; [lia | done].
Qed.

Lemma set_progress_forwards (v p : Z) (st : launcher) :
  0 < max_value st ->
  percentage_of v (max_value st) = inr p ->
  set_progress v st =
    Return tt (if window st
               then emit (EvJs (update_progress_js p v (max_value st)))
                         (with_current_progress v st)
               else with_current_progress v st).
Proof.
  intros Hm Hp. unfold_py. simpl.
  destruct (0 <? max_value st) eqn:E; [| lia].
  simpl. rewrite Hp. simpl. by destruct (window st).
Qed.

Lemma set_progress_all_without_max (vs : list Z) :
  forall st, max_value st <= 0 ->
    exists st', set_progress_all vs st = Return tt st' /\
                trace st' = trace st /\ max_value st' = max_value st /\
                window st' = window st /\ config st' = config st /\
                disk st' = disk st.
Proof.
  induction vs as [| v rest IH]; intros st Hm.
  - by exists st.
  - destruct (IH (with_current_progress v st) Hm) as (st' & Hrun & H).
    exists st'. split; [| exact H].
    simpl. unfold bind. by rewrite (set_progress_without_max v st Hm).
Qed.

(** C4: in a launcher fresh from [__init__] (the maximum is 0), with or
    without a window, any number of [set_progress] calls return normally
    and send nothing to the page; each one only stores its argument. *)
Theorem set_progress_before_set_max_is_silent
    (d : option document) (werr rerr : option string) (w : bool)
    (v : Z) (vs : list Z) :
  let st0 := with_window w (init d werr rerr) in
  max_value st0 = 0 /\
  set_progress v st0 = Return tt (with_current_progress v st0) /\
  exists st', set_progress_all vs st0 = Return tt st' /\ trace st' = [].
Proof.
  simpl. split; [done |]. split.
  - by apply set_progress_without_max.
  - destruct (set_progress_all_without_max vs (with_window w (init d werr rerr)))
      as (st' & Hrun & Htr & _); [done |].
    by exists st'.
Qed.

(** C5: with a window attached, [set_max(50)] then [set_progress(25)]
    sends [updateProgress(50, 25, 50)], but [set_max(100)] then
    [set_progress(29)] sends the percentage 28, one less than
    [floor(29/100 * 100) = 29]: the quotient and the product are rounded
    to binary64 before [int] truncates. *)
Theorem set_progress_29_of_100_sends_28 (st : launcher) :
  (set_max 50 ;; set_progress 25) (with_window true st) =
    Return tt (emit (EvJs "updateProgress(50, 25, 50)")
                 (with_current_progress 25 (with_max_value 50 (with_window true st)))) /\
  (set_max 100 ;; set_progress 29) (with_window true st) =
    Return tt (emit (EvJs "updateProgress(28, 29, 100)")
                 (with_current_progress 29 (with_max_value 100 (with_window true st)))) /\
  percentage_of 29 100 = inr 28 /\
  exact_percentage 29 100 = 29.
Proof.
  repeat split; reflexivity.
Qed.

(** For maxima up to 300 and values up to the maximum, the computed
    percentage never exceeds the exact one and falls short by at most 1. *)
Lemma percentage_within_one (v m : Z) :
  1 <= m <= 300 -> 0 <= v <= m ->
  exists p, percentage_of v m = inr p /\
            exact_percentage v m - 1 <= p <= exact_percentage v m.
Proof.
  intros Hm Hv.
  assert (Hall : forallb (fun m => forallb (fun v =>
                   percentage_close (Z.of_nat v) (Z.of_nat m)) (seq 0 (S m)))
                   (seq 1 300) = true) by (vm_compute; reflexivity).
  rewrite forallb_forall in Hall.
  specialize (Hall (Z.to_nat m)). rewrite forallb_forall in Hall.
  specialize (Hall ltac:(apply in_seq; lia) (Z.to_nat v) ltac:(apply in_seq; lia)).
  rewrite !Z2Nat.id in Hall by lia.
  unfold percentage_close in Hall.
  destruct (percentage_of v m) as [e | p]; [done |].
  exists p. split; [done |].
  apply andb_true_iff in Hall. lia.
Qed.




(** ** LaunchSession: validation *)

Lemma blank_falsy (data : gmap string value) (key : string) :
  blank (data !! key) -> truthy (dict_get data key VNone) = false.
Proof.
  unfold dict_get. intros [H | [H | H]]; by rewrite H.
Qed.

Lemma launch_rejects_falsy (data : gmap string value) (st : launcher) :
  truthy (dict_get data "version" VNone) = false \/
  truthy (dict_get data "username" VNone) = false ->
  launch data st = set_status validation_message st.
Proof.
  intros H. unfold launch.
  destruct H as [H | H]; rewrite H; simpl; [done |].
  by rewrite orb_true_r.
Qed.

(** C3: when the version or the username of the request is empty or
    absent, [launch] only calls [set_status] with the validation message:
    it returns normally, the page gets that one [updateStatus] call when a
    window is attached, and nothing else changes: the configuration (so
    [last_username], [ram_allocation] and the history) and the file are as
    before, and the trace has no write and no thread start. *)
Theorem launch_rejects_blank_request (data : gmap string value) (st : launcher) :
  blank (data !! "version") \/ blank (data !! "username") ->
  launch data st = set_status validation_message st /\
  exists st',
    launch data st = Return tt st' /\
    st' = (if window st
           then emit (EvJs (update_status_js validation_message)) st
           else st) /\
    config st' = config st /\
    disk st' = disk st /\
    trace st' = (trace st ++
      (if window st then [EvJs (update_status_js validation_message)] else []))%list.
Proof.
  intros H.
  assert (Hrun : launch data st = set_status validation_message st).
  { apply launch_rejects_falsy.
    destruct H as [H | H]; [left | right]; by apply blank_falsy. }
  split; [exact Hrun |]. rewrite Hrun. unfold_py. simpl.
  destruct (window st); simpl.
  - eexists. repeat split; reflexivity.
  - exists st. repeat split. by rewrite app_nil_r.
Qed.

Lemma launch_rejects_blank_request_witness :
  launch blank_version_data sample_state =
    Return tt (emit (EvJs (update_status_js validation_message)) sample_state).
Proof.
  destruct (launch_rejects_blank_request blank_version_data sample_state)
    as (_ & st' & Hrun & Hst & _).
  - left. right. right. reflexivity.
  - rewrite Hrun, Hst. reflexivity.
Defined.

(** ** ConfigStore: reset *)

(** C7: [reset_launcher_data] never raises and always returns a
    dictionary with exactly the keys [success] and [message], in this
    order.  When the file is absent, or present and the system lets it be
    removed, the file is gone afterwards, the in-memory configuration is
    exactly [default_config] and the reply is
    [{True, "Launcher data reset successfully!"}]; when the removal is
    refused with error [e], the reply is [{False, "Error: " + e}] and
    nothing has changed. *)
Theorem reset_launcher_data_replies (st : launcher) :
  exists r st',
    reset_launcher_data st = Return r st' /\
    (exists success message,
        r = VDict [("success", VBool success); ("message", VStr message)]) /\
    match disk st, remove_error st with
    | Some _, Some e =>
        r = VDict [("success", VBool false); ("message", VStr ("Error: " +:+ e))] /\
        r = reply false ("Error: " +:+ e) /\ st' = st
    | Some _, None =>
        r = VDict [("success", VBool true);
                   ("message", VStr "Launcher data reset successfully!")] /\
        r = reply true "Launcher data reset successfully!" /\
        disk st' = None /\ config st' = default_config /\
        trace st' = (trace st ++ [EvRemove])%list
    | None, _ =>
        r = VDict [("success", VBool true);
                   ("message", VStr "Launcher data reset successfully!")] /\
        r = reply true "Launcher data reset successfully!" /\
        disk st' = None /\ config st' = default_config /\
        trace st' = trace st
    end.
Proof.
  unfold_py. destruct st as [w m p c d werr rerr n tr]. simpl.
  destruct d as [doc |]; simpl.
  - destruct rerr as [e |]; simpl; eexists _, _; (split; [reflexivity |]);
      (split; [by eexists _, _ |]); by repeat split.
  - eexists _, _. split; [reflexivity |]. split; [by eexists _, _ |].
    destruct rerr; by repeat split.
Qed.

(** ** Relations every step of the worker respects *)

Section Respects.

Variable R : launcher -> launcher -> Prop.
Hypothesis R_refl : forall st, R st st.
Hypothesis R_trans : forall a b c, R a b -> R b c -> R a c.

Lemma respects_ret {A} (a : A) : respects R (ret a).
Proof. intros st. apply R_refl. Qed.

Lemma respects_raise {A} (e : string) : respects R (@raise A e).
Proof. intros st. apply R_refl. Qed.

Lemma respects_gets {A} (f : launcher -> A) : respects R (gets f).
Proof. intros st. apply R_refl. Qed.

Lemma respects_modify (f : launcher -> launcher) :
  (forall st, R st (f st)) -> respects R (modify f).
Proof. intros H st. apply H. Qed.

Lemma respects_bind {A B} (c : M A) (k : A -> M B) :
  respects R c -> (forall a, respects R (k a)) -> respects R (bind c k).
Proof.
  intros Hc Hk st. unfold bind. specialize (Hc st).
  destruct (c st) as [a st1 | e st1]; simpl in *; [| done].
  eapply R_trans; [exact Hc | apply Hk].
Qed.

Lemma respects_try_except {A} (body : M A) (handler : string -> M A) :
  respects R body -> (forall e, respects R (handler e)) ->
  respects R (try_except body handler).
Proof.
  intros Hb Hh st. unfold try_except. specialize (Hb st).
  destruct (body st) as [a st1 | e st1]; simpl in *; [done |].
  eapply R_trans; [exact Hb | apply Hh].
Qed.

Lemma respects_when (b : bool) (c : M unit) :
  respects R c -> respects R (when b c).
Proof. intros Hc. destruct b; [exact Hc | apply respects_ret]. Qed.

Hypothesis R_js : forall code st, R st (emit (EvJs code) st).
Hypothesis R_progress : forall p st, R st (with_current_progress p st).
Hypothesis R_max : forall m st, R st (with_max_value m st).

Lemma respects_set_status (status : string) : respects R (set_status status).
Proof.
  unfold set_status. apply respects_bind; [apply respects_gets |].
  intros w. apply respects_when, respects_modify, R_js.
Qed.

Lemma respects_set_progress (progress : Z) : respects R (set_progress progress).
Proof.
  unfold set_progress.
  apply respects_bind; [apply respects_modify, R_progress | intros _].
  apply respects_bind; [apply respects_gets | intros m].
  destruct (0 <? m); [| apply respects_ret].
  apply respects_bind; [apply respects_gets | intros c].
  destruct (percentage_of c m); [apply respects_raise |].
  apply respects_bind; [apply respects_gets | intros w].
  apply respects_when, respects_modify, R_js.
Qed.

Lemma respects_set_max (new_max : Z) : respects R (set_max new_max).
Proof. apply respects_modify, R_max. Qed.

Lemma respects_run_callbacks (cbs : list callback) :
  respects R (run_callbacks cbs).
Proof.
  induction cbs as [| cb rest IH]; [apply respects_ret |].
  simpl. apply respects_bind; [| intros _; exact IH].
  destruct cb; [apply respects_set_status | apply respects_set_progress
               | apply respects_set_max].
Qed.

Hypothesis R_call : forall e st, is_install e = false -> R st (emit e st).

Lemma respects_command (ext : externals) (version : string) (o : options) :
  respects R (command ext version o).
Proof.
  unfold command. apply respects_bind; [apply respects_modify; intros st; by apply R_call |].
  intros _. destruct (get_minecraft_command ext version o);
    [apply respects_raise | apply respects_ret].
Qed.

Lemma respects_spawn (ext : externals) (cmd : list string) :
  respects R (spawn ext cmd).
Proof.
  unfold spawn. apply respects_bind; [apply respects_modify; intros st; by apply R_call |].
  intros _. destruct (popen ext cmd); [apply respects_raise | apply respects_ret].
Qed.

Hypothesis R_install : forall version st, R st (emit (EvInstall version) st).

Lemma respects_install (ext : externals) (version : string) :
  respects R (install ext version).
Proof.
  unfold install. apply respects_bind; [apply respects_modify, R_install |].
  intros _. destruct (install_minecraft_version ext version) as [cbs failure].
  apply respects_bind; [apply respects_run_callbacks | intros _].
  destruct failure; [apply respects_raise | apply respects_ret].
Qed.

Lemma respects_install_phase (ext : externals) (version : string) :
  respects R (install_phase ext version).
Proof.
  unfold install_phase.
  apply respects_bind; [apply respects_set_status | intros _].
  apply respects_install.
Qed.

Hypothesis R_ticks : forall n st, R st (with_ticks n st).
Hypothesis R_disk : forall d st, R st (with_disk d st).
Hypothesis R_history :
  forall v st, R st (with_config (<["launch_history" := v]> (config st)) st).

Lemma respects_save_config : respects R save_config.
Proof.
  intros st. unfold save_config.
  destruct (write_error st); simpl; [by apply R_call |].
  eapply R_trans; [apply R_disk | by apply R_call].
Qed.

Lemma respects_add_launch_history (ext : externals) (version username : string) :
  respects R (add_launch_history ext version username).
Proof.
  unfold add_launch_history.
  apply respects_bind; [apply respects_gets | intros now].
  apply respects_bind; [apply respects_modify; intros st; apply R_ticks | intros _].
  apply respects_bind; [apply respects_gets | intros c].
  destruct (c !! "launch_history") as [[| | | | h |] |];
    try apply respects_raise.
  apply respects_bind; [apply respects_modify; intros st; apply R_history | intros _].
  apply respects_bind; [apply respects_save_config | intros _].
  apply respects_bind; [apply respects_gets | intros w].
  apply respects_when, respects_modify, R_js.
Qed.

Lemma respects_launch_phase (ext : externals) (version username : string) (ram : Z) :
  respects R (launch_phase ext version username ram).
Proof.
  unfold launch_phase.
  apply respects_bind; [apply respects_set_status | intros _].
  apply respects_bind; [apply respects_set_status | intros _].
  apply respects_bind; [apply respects_command | intros cmd].
  apply respects_bind; [apply respects_spawn | intros _].
  apply respects_bind; [apply respects_set_status | intros _].
  apply respects_add_launch_history.
Qed.

Lemma respects_install_and_launch (ext : externals) (version username : string) (ram : Z) :
  respects R (install_and_launch ext version username ram).
Proof.
  unfold install_and_launch, install_and_launch_body.
  apply respects_try_except; [| intros e; apply respects_set_status].
  apply respects_bind; [apply respects_set_status | intros _].
  apply respects_bind; [apply respects_install | intros _].
  apply respects_launch_phase.
Qed.

End Respects.

Lemma installs_snoc (tr : list event) (e : event) :
  installs (tr ++ [e]) = (installs tr + (if is_install e then 1 else 0))%nat.
Proof.
  unfold installs. rewrite filter_app, length_app. f_equal.
  cbn. by destruct (is_install e).
Qed.

Lemma extends_refl (st : launcher) : extends st st.
Proof. exists []. by rewrite app_nil_r. Qed.

Lemma extends_trans (a b c : launcher) : extends a b -> extends b c -> extends a c.
Proof.
  intros [t1 H1] [t2 H2]. exists (t1 ++ t2)%list. by rewrite H2, H1, app_assoc.
Qed.

Lemma extends_emit (e : event) (st : launcher) : extends st (emit e st).
Proof. by exists [e]. Qed.

Lemma extends_elem_of (e : event) (st st1 : launcher) :
  extends st st1 -> e ∈ trace st -> e ∈ trace st1.
Proof. intros [tr ->] H. apply elem_of_app. by left. Qed.

Lemma same_store_refl (st : launcher) : same_store st st.
Proof. by repeat split. Qed.

Lemma same_store_trans (a b c : launcher) :
  same_store a b -> same_store b c -> same_store a c.
Proof.
  unfold same_store. intros (?&?&?&?&?&?) (?&?&?&?&?&?).
  repeat split; congruence.
Qed.

Lemma same_installs_trans (a b c : launcher) :
  same_installs a b -> same_installs b c -> same_installs a c.
Proof. unfold same_installs. congruence. Qed.

Lemma same_installs_emit (e : event) (st : launcher) :
  is_install e = false -> same_installs st (emit e st).
Proof.
  intros H. unfold same_installs. simpl. rewrite installs_snoc, H. lia.
Qed.

Lemma keeps_settings_trans (a b c : launcher) :
  keeps_settings a b -> keeps_settings b c -> keeps_settings a c.
Proof. intros H1 H2 k Hk. by rewrite H2, H1. Qed.

(** The whole worker only adds to the trace and never touches a setting
    other than the history. *)
Lemma install_and_launch_extends (ext : externals) (version username : string) (ram : Z) :
  respects extends (install_and_launch ext version username ram).
Proof.
  apply respects_install_and_launch;
    first [ exact extends_refl | exact extends_trans
          | intros; apply extends_emit
          | intros; exists []; simpl; by rewrite app_nil_r ].
Qed.

Lemma add_launch_history_extends (ext : externals) (version username : string) :
  respects extends (add_launch_history ext version username).
Proof.
  apply respects_add_launch_history;
    first [ exact extends_refl | exact extends_trans
          | intros; apply extends_emit
          | intros; exists []; simpl; by rewrite app_nil_r ].
Qed.

Lemma install_and_launch_keeps_settings (ext : externals) (version username : string) (ram : Z) :
  respects keeps_settings (install_and_launch ext version username ram).
Proof.
  apply respects_install_and_launch;
    first [ exact keeps_settings_trans
          | by intros; intros k Hk
          | intros v st k Hk; simpl; by apply lookup_insert_ne ].
Qed.

Lemma install_phase_same_store (ext : externals) (version : string) :
  respects same_store (install_phase ext version).
Proof.
  apply respects_install_phase;
    first [ exact same_store_refl | exact same_store_trans
          | by intros; repeat split ].
Qed.

Lemma set_status_returns (status : string) (st : launcher) :
  set_status status st =
    Return tt (if window st then emit (EvJs (update_status_js status)) st else st).
Proof. unfold_py. by destruct (window st). Qed.

Lemma run_callbacks_same_installs (cbs : list callback) :
  respects same_installs (run_callbacks cbs).
Proof.
  apply respects_run_callbacks;
    first [ exact same_installs_trans
          | by intros; apply same_installs_emit
          | by intros ].
Qed.

Lemma install_phase_installs (ext : externals) (version : string) (st : launcher) :
  installs (trace (state_of (install_phase ext version st))) = S (installs (trace st)).
Proof.
  unfold install_phase, bind. rewrite set_status_returns.
  unfold install, bind, modify.
  destruct (install_minecraft_version ext version) as [cbs failure].
  pose proof (run_callbacks_same_installs cbs
                (emit (EvInstall version)
                   (if window st
                    then emit (EvJs (update_status_js
                                       ("Installing Minecraft " +:+ version +:+ "..."))) st
                    else st))) as H.
  unfold same_installs in H.
  destruct (run_callbacks cbs _) as [[] s | e s]; simpl in H.
  - assert (Hs : installs (trace s) = S (installs (trace st))).
    { rewrite H. simpl. rewrite installs_snoc. simpl.
      destruct (window st); simpl; [rewrite installs_snoc; simpl |]; lia. }
    by destruct failure.
  - simpl. rewrite H. simpl. rewrite installs_snoc. simpl.
    destruct (window st); simpl; [rewrite installs_snoc; simpl |]; lia.
Qed.

Lemma body_split (ext : externals) (version username : string) (ram : Z) (st : launcher) :
  install_and_launch_body ext version username ram st =
    match install_phase ext version st with
    | Return _ s1 => launch_phase ext version username ram s1
    | Raise e s1 => Raise e s1
    end.
Proof.
  unfold install_and_launch_body, install_phase, launch_phase, bind.
  rewrite set_status_returns.
  by destruct (install ext version _).
Qed.

Lemma install_and_launch_returns (ext : externals) (version username : string)
    (ram : Z) (st : launcher) :
  exists st', install_and_launch ext version username ram st = Return tt st'.
Proof.
  unfold install_and_launch, try_except.
  destruct (install_and_launch_body ext version username ram st) as [[] s | e s].
  - by exists s.
  - rewrite set_status_returns. eauto.
Qed.

(** ** LaunchSession: the worker *)

Lemma launch_phase_command_raises (ext : externals) (version username : string)
    (ram : Z) (e : string) (s1 : launcher) :
  get_minecraft_command ext version (launch_options username ram) = inl e ->
  exists s2, launch_phase ext version username ram s1 = Raise e s2 /\
             same_store s1 s2 /\ same_installs s1 s2.
Proof.
  intros H. unfold launch_phase, command, bind, modify.
  rewrite !set_status_returns. rewrite H. unfold raise.
  eexists. split; [reflexivity |].
  unfold same_installs.
  destruct s1 as [w m p c d werr rerr n tr]; destruct w; simpl;
    rewrite ?installs_snoc; simpl; split; first [by repeat split | lia].
Qed.

Lemma error_status_last (e : string) (s : launcher) :
  window s = true ->
  last (trace (emit (EvJs (update_status_js ("Error: " +:+ e))) s))
    = Some (EvJs (update_status_js ("Error: " +:+ e))).
Proof. intros _. simpl. apply last_snoc. Qed.

(** What the [except] clause makes of an exception [e] that leaves the
    [try] block in state [s]. *)
Lemma install_and_launch_failed (ext : externals) (version username : string)
    (ram : Z) (e : string) (st s : launcher) :
  install_and_launch_body ext version username ram st = Raise e s ->
  same_store st s ->
  installs (trace s) = S (installs (trace st)) ->
  exists st',
    install_and_launch ext version username ram st = Return tt st' /\
    config st' = config st /\
    disk st' = disk st /\
    installs (trace st') = S (installs (trace st)) /\
    (window st = true ->
     last (trace st') = Some (EvJs (update_status_js ("Error: " +:+ e)))).
Proof.
  intros Hbody (Hc & Hd & Hw & _) Hi.
  unfold install_and_launch, try_except. rewrite Hbody, set_status_returns.
  eexists. split; [reflexivity |].
  destruct (window s) eqn:Ews; simpl.
  - repeat split; try done.
    + rewrite installs_snoc. simpl. lia.
    + intros _. apply last_snoc.
  - repeat split; try done. intros Hwst. congruence.
Qed.

(** An exception of the library is caught: the worker returns, nothing
    is recorded and the install call has been made once. *)
Lemma library_exception_caught (ext : externals)
    (version username : string) (ram : Z) (e : string) (st : launcher) :
  library_raises ext version username ram st e ->
  exists st',
    install_and_launch ext version username ram st = Return tt st' /\
    config st' = config st /\
    disk st' = disk st /\
    installs (trace st') = S (installs (trace st)) /\
    (window st = true ->
     last (trace st') = Some (EvJs (update_status_js ("Error: " +:+ e)))).
Proof.
  intros [[s1 Hphase] | (s1 & Hphase & Hcmd)].
  - apply install_and_launch_failed with (s := s1).
    + by rewrite body_split, Hphase.
    + pose proof (install_phase_same_store ext version st) as H.
      by rewrite Hphase in H.
    + pose proof (install_phase_installs ext version st) as H.
      by rewrite Hphase in H.
  - destruct (launch_phase_command_raises ext version username ram e s1 Hcmd)
      as (s2 & Hlaunch & Hstore & Hinst).
    apply install_and_launch_failed with (s := s2).
    + by rewrite body_split, Hphase.
    + eapply same_store_trans; [| exact Hstore].
      pose proof (install_phase_same_store ext version st) as H.
      by rewrite Hphase in H.
    + pose proof (install_phase_installs ext version st) as H.
      rewrite Hphase in H. simpl in H. unfold same_installs in Hinst. congruence.
Qed.

Lemma commands_app (a b : list event) :
  commands (a ++ b) = (commands a + commands b)%nat.
Proof. unfold commands. by rewrite List.filter_app, length_app. Qed.

Lemma spawns_app (a b : list event) :
  spawns (a ++ b) = (spawns a + spawns b)%nat.
Proof. unfold spawns. by rewrite List.filter_app, length_app. Qed.

Ltac count_events :=
  unfold emit, js_if; cbn [trace];
  rewrite ?commands_app, ?spawns_app; unfold commands, spawns in *; cbn; lia.

Lemma same_launch_calls_trans (a b c : launcher) :
  same_launch_calls a b -> same_launch_calls b c -> same_launch_calls a c.
Proof. unfold same_launch_calls. intros [? ?] [? ?]. split; congruence. Qed.

(** The install call and its callbacks request no command and spawn no
    process. *)
Lemma install_phase_same_launch_calls (ext : externals) (version : string) :
  respects same_launch_calls (install_phase ext version).
Proof.
  apply respects_install_phase;
    first [ exact same_launch_calls_trans
          | by intros; split
          | intros; unfold same_launch_calls, emit; cbn [trace];
            rewrite commands_app, spawns_app; cbn; split; lia ].
Qed.

(** The state in which the [except] clause leaves the worker. *)
Lemma install_and_launch_failed_state (ext : externals) (version username : string)
    (ram : Z) (e : string) (st s : launcher) :
  install_and_launch_body ext version username ram st = Raise e s ->
  install_and_launch ext version username ram st =
    Return tt (if window s
               then emit (EvJs (update_status_js ("Error: " +:+ e))) s
               else s).
Proof.
  intros Hbody. unfold install_and_launch, try_except.
  by rewrite Hbody, set_status_returns.
Qed.

(** The state in which an exception of the command builder leaves the
    [try] block. *)
Lemma launch_phase_command_raises_trace (ext : externals) (version username : string)
    (ram : Z) (e : string) (s1 : launcher) :
  get_minecraft_command ext version (launch_options username ram) = inl e ->
  exists s2,
    launch_phase ext version username ram s1 = Raise e s2 /\
    window s2 = window s1 /\
    trace s2 =
      (trace s1
       ++ js_if (window s1)
            (update_status_js ("Minecraft " +:+ version +:+ " installed successfully!"))
       ++ js_if (window s1)
            (update_status_js ("Launching Minecraft " +:+ version +:+ "..."))
       ++ [EvCommand version (launch_options username ram)])%list.
Proof.
  intros H. unfold launch_phase, command, bind, modify.
  rewrite !set_status_returns. rewrite H. unfold raise.
  eexists. split; [reflexivity |].
  destruct s1 as [w m p c d werr rerr n tr]; destruct w; simpl;
    rewrite <- ?app_assoc; by split.
Qed.

(** C9: when the library raises [e] during the flow, out of the install
    call or out of the command builder, the worker goes straight to its
    failure branch and ends there normally.  The configuration, and with
    it the launch history, and the file are exactly as before; the install
    call has been made once and not again; no process is spawned.  After
    an exception of the install call nothing follows it but the error
    status: no command is requested.  After an exception of the command
    builder, what follows the install call is the two status lines, the
    one command request that raised and the error status.  The error
    status is [updateStatus("Error: " + e)], the text of the exception
    unchanged after the error marker, sent when a window is attached. *)
Theorem library_exception_ends_in_error_status (ext : externals)
    (version username : string) (ram : Z) (e : string) (st : launcher) :
  library_raises ext version username ram st e ->
  let quote := String (ascii_of_nat 34) EmptyString in
  let status := fun text : string => "updateStatus(" +:+ quote +:+ text +:+ quote +:+ ")" in
  exists st',
    install_and_launch ext version username ram st = Return tt st' /\
    config st' = config st /\
    disk st' = disk st /\
    installs (trace st') = S (installs (trace st)) /\
    spawns (trace st') = spawns (trace st) /\
    (window st = true ->
     last (trace st') = Some (EvJs (status ("Error: " +:+ e)))) /\
    (forall s1, install_phase ext version st = Raise e s1 ->
       commands (trace st') = commands (trace st) /\
       trace st' =
         (trace s1
          ++ if window st then [EvJs (status ("Error: " +:+ e))] else [])%list) /\
    (forall s1, install_phase ext version st = Return tt s1 ->
       commands (trace st') = S (commands (trace st)) /\
       trace st' =
         (trace s1
          ++ (if window st
              then [EvJs (status ("Minecraft " +:+ version +:+ " installed successfully!"));
                    EvJs (status ("Launching Minecraft " +:+ version +:+ "..."))]
              else [])
          ++ [EvCommand version
                (Options username "" ""
                   ["-Xmx" +:+ str_int ram +:+ "G";
                    "-Xms" +:+ str_int (Z.max 1 (ram / 2)) +:+ "G"])]
          ++ if window st then [EvJs (status ("Error: " +:+ e))] else [])%list).
Proof.
  intros Hraise quote status.
  destruct (library_exception_caught ext version username ram e st Hraise)
    as (st' & Hrun & Hcfg & Hdisk & Hinst & Hlast).
  exists st'. do 4 (split; [assumption |]).
  pose proof (install_phase_same_store ext version st) as Hstore.
  pose proof (install_phase_same_launch_calls ext version st) as Hcalls.
  destruct Hraise as [[s1 Hphase] | (s1 & Hphase & Hcmd)];
    rewrite Hphase in Hstore, Hcalls; simpl in Hstore, Hcalls;
    destruct Hstore as (_ & _ & Hw1 & _); destruct Hcalls as [Hc1 Hp1].
  - assert (Hst : install_and_launch ext version username ram st =
                  Return tt (if window s1
                             then emit (EvJs (update_status_js ("Error: " +:+ e))) s1
                             else s1)).
    { apply install_and_launch_failed_state. by rewrite body_split, Hphase. }
    rewrite Hrun, Hw1 in Hst. injection Hst as ->.
    split; [| split; [| split]].
    + destruct (window st); count_events.
    + intros Hw. rewrite Hw. simpl. apply last_snoc.
    + intros s1' Hr. rewrite Hphase in Hr. injection Hr as <-.
      destruct (window st); (split; [count_events |]); simpl;
        by rewrite ?app_nil_r.
    + intros s1' Hret. rewrite Hphase in Hret. discriminate.
  - destruct (launch_phase_command_raises_trace ext version username ram e s1 Hcmd)
      as (s2 & Hlaunch & Hw2 & Htr2).
    assert (Hst : install_and_launch ext version username ram st =
                  Return tt (if window s2
                             then emit (EvJs (update_status_js ("Error: " +:+ e))) s2
                             else s2)).
    { apply install_and_launch_failed_state. by rewrite body_split, Hphase. }
    rewrite Hrun, Hw2, Hw1 in Hst. injection Hst as ->.
    rewrite Hw1 in Htr2.
    split; [| split; [| split]].
    + destruct (window st); unfold emit; cbn [trace]; rewrite Htr2; count_events.
    + intros Hw. rewrite Hw. simpl. apply last_snoc.
    + intros s1' Hr. rewrite Hphase in Hr. discriminate.
    + intros s1' Hr. rewrite Hphase in Hr. injection Hr as <-.
      destruct (window st); unfold emit; cbn [trace]; rewrite Htr2;
        (split; [count_events |]); unfold js_if; simpl;
        by rewrite ?app_nil_r, <- ?app_assoc.
Qed.

Lemma library_exception_ends_in_error_status_witness :
  exists st',
    install_and_launch failing_ext "1.20.1" "Notch" 4 sample_state = Return tt st' /\
    config st' = config sample_state /\
    spawns (trace st') = 0%nat /\
    commands (trace st') = 0%nat /\
    trace st' =
      [EvJs ("updateStatus(" +:+ String (ascii_of_nat 34) "Installing Minecraft 1.20.1..."
               +:+ String (ascii_of_nat 34) ")");
       EvInstall "1.20.1";
       EvJs "updateProgress(50, 5, 10)";
       EvJs ("updateStatus(" +:+ String (ascii_of_nat 34) "Error: Version not found"
               +:+ String (ascii_of_nat 34) ")")].
Proof.
  destruct (library_exception_ends_in_error_status failing_ext "1.20.1" "Notch" 4
              "Version not found" sample_state)
    as (st' & Hrun & Hcfg & _ & _ & Hsp & _ & Hinstall & _).
  - left. eexists. reflexivity.
  - destruct (Hinstall (state_of (install_phase failing_ext "1.20.1" sample_state))
                eq_refl) as [Hcm Htr].
    exists st'. split; [exact Hrun |]. split; [exact Hcfg |].
    split; [exact Hsp |]. split; [exact Hcm |].
    rewrite Htr. reflexivity.
Defined.

(** C6: for [ram >= 1], once the install call has returned, the worker
    asks the library for the launch command with the JVM arguments
    [-Xmx{ram}G] and [-Xms{max(1, ram // 2)}G], in this order and nothing
    else; the second number is at least 1 and at most [ram]. *)
Theorem launch_builds_jvm_arguments (ext : externals) (version username : string)
    (ram : Z) (st s1 : launcher) :
  1 <= ram ->
  install_phase ext version st = Return tt s1 ->
  exists st',
    install_and_launch ext version username ram st = Return tt st' /\
    EvCommand version
      (Options username "" ""
         ["-Xmx" +:+ str_int ram +:+ "G";
          "-Xms" +:+ str_int (Z.max 1 (ram / 2)) +:+ "G"]) ∈ trace st' /\
    jvmArguments (launch_options username ram) =
      ["-Xmx" +:+ str_int ram +:+ "G";
       "-Xms" +:+ str_int (Z.max 1 (ram / 2)) +:+ "G"] /\
    1 <= Z.max 1 (ram / 2) <= ram.
Proof.
  intros Hram Hphase.
  destruct (install_and_launch_returns ext version username ram st) as [st' Hrun].
  exists st'. split; [exact Hrun |].
  split; [| split; [reflexivity |]].
  - revert Hrun. unfold install_and_launch, try_except.
    rewrite body_split, Hphase.
    unfold launch_phase, command, bind, modify. rewrite !set_status_returns.
    set (s2 := emit (EvCommand version (launch_options username ram)) _).
    assert (Hin : EvCommand version (launch_options username ram) ∈ trace s2).
    { subst s2. simpl. apply elem_of_app. right. apply elem_of_cons. by left. }
    clearbody s2.
    destruct (get_minecraft_command ext version (launch_options username ram))
      as [e | cmd]; simpl.
    + rewrite set_status_returns. intros [= <-].
      destruct (window s2); [| exact Hin].
      eapply extends_elem_of; [apply extends_emit | exact Hin].
    + unfold spawn, bind, modify. destruct (popen ext cmd) as [e |]; simpl.
      * rewrite set_status_returns. intros [= <-].
        assert (Hin' : EvCommand version (launch_options username ram)
                         ∈ trace (emit (EvPopen cmd) s2)).
        { eapply extends_elem_of; [apply extends_emit | exact Hin]. }
        destruct (window _); [| exact Hin'].
        eapply extends_elem_of; [apply extends_emit | exact Hin'].
      * rewrite set_status_returns.
        set (s3 := if window _ then _ else _).
        assert (Hin3 : EvCommand version (launch_options username ram) ∈ trace s3).
        { assert (Hin' : EvCommand version (launch_options username ram)
                           ∈ trace (emit (EvPopen cmd) s2)).
          { eapply extends_elem_of; [apply extends_emit | exact Hin]. }
          subst s3. destruct (window _); [| exact Hin'].
          eapply extends_elem_of; [apply extends_emit | exact Hin']. }
        clearbody s3.
        pose proof (add_launch_history_extends ext version username s3) as Hext.
        destruct (add_launch_history ext version username s3) as [[] s4 | e s4];
          simpl in Hext.
        -- intros [= <-]. by eapply extends_elem_of.
        -- rewrite set_status_returns. intros [= <-].
           assert (Hin4 : EvCommand version (launch_options username ram) ∈ trace s4)
             by (by eapply extends_elem_of).
           destruct (window s4); [| exact Hin4].
           eapply extends_elem_of; [apply extends_emit | exact Hin4].
  - split; [lia |]. apply Z.max_lub; [lia |].
    apply Z.div_le_upper_bound; lia.
Qed.

Lemma launch_builds_jvm_arguments_witness :
  exists st',
    install_and_launch sample_ext "1.20.1" "Notch" 4 sample_state = Return tt st' /\
    EvCommand "1.20.1" (Options "Notch" "" "" ["-Xmx4G"; "-Xms2G"]) ∈ trace st'.
Proof.
  destruct (launch_builds_jvm_arguments sample_ext "1.20.1" "Notch" 4 sample_state
              (state_of (install_phase sample_ext "1.20.1" sample_state)))
    as (st' & Hrun & Hin & _); [lia | reflexivity |].
  exists st'. split; [exact Hrun | exact Hin].
Defined.

(** ** LaunchSession: the handler *)

(** C8: for a request whose version and username are both non-empty,
    [launch] returns after setting [last_username] and [ram_allocation]
    and saving the configuration after each of them, in this order, and
    only then starting the thread: the two saves come before the thread
    start in the trace, and the file holds the updated configuration when
    the system accepts the writes.  Whatever the worker then meets (any
    library behaviour, success or failure), it ends and both settings are
    still the submitted ones. *)
Theorem launch_saves_settings_before_thread (data : gmap string value) (st : launcher) :
  truthy (dict_get data "version" VNone) = true ->
  truthy (dict_get data "username" VNone) = true ->
  let version := dict_get data "version" VNone in
  let username := dict_get data "username" VNone in
  let ram := dict_get data "ram" (VInt 2) in
  let c1 := <["last_username" := username]> (config st) in
  let c2 := <["ram_allocation" := ram]> c1 in
  exists st',
    launch data st = Return tt st' /\
    config st' = c2 /\
    config st' !! "last_username" = Some username /\
    config st' !! "ram_allocation" = Some ram /\
    trace st' = (trace st ++ [save_event st c1; save_event st c2;
                              EvThread version username ram])%list /\
    disk st' = match write_error st with
               | None => Some (DObject c2)
               | Some _ => disk st
               end /\
    forall (ext : externals) (v u : string) (r : Z),
    exists st'',
      install_and_launch ext v u r st' = Return tt st'' /\
      config st'' !! "last_username" = Some username /\
      config st'' !! "ram_allocation" = Some ram.
Proof.
  intros Hv Hu version username ram c1 c2.
  assert (H1 : c2 !! "last_username" = Some username).
  { subst c2 c1. rewrite lookup_insert_ne by done. apply lookup_insert_eq. }
  assert (H2 : c2 !! "ram_allocation" = Some ram).
  { subst c2. apply lookup_insert_eq. }
  assert (Hrun : exists st', launch data st = Return tt st' /\ config st' = c2 /\
            trace st' = (trace st ++ [save_event st c1; save_event st c2;
                                      EvThread version username ram])%list /\
            disk st' = match write_error st with
                       | None => Some (DObject c2)
                       | Some _ => disk st
                       end).
  { unfold launch. rewrite Hv, Hu. simpl. unfold_py. unfold save_event.
    destruct st as [w m p c d werr rerr n tr]. simpl in *.
    destruct werr as [err |]; simpl; eexists; (split; [reflexivity |]); simpl;
      rewrite <- ?app_assoc; by repeat split. }
  destruct Hrun as (st' & Hrun & Hcfg & Htrace & Hdisk).
  exists st'. rewrite Hcfg.
  repeat (split; [done |]).
  intros ext v u r.
  destruct (install_and_launch_returns ext v u r st') as [st'' Hw].
  exists st''. split; [exact Hw |].
  pose proof (install_and_launch_keeps_settings ext v u r st') as Hkeep.
  rewrite Hw in Hkeep. simpl in Hkeep.
  rewrite !Hkeep by done. by rewrite Hcfg.
Qed.

Lemma launch_saves_settings_before_thread_witness :
  exists st',
    launch sample_data sample_state = Return tt st' /\
    config st' !! "last_username" = Some (VStr "Notch") /\
    config st' !! "ram_allocation" = Some (VInt 4) /\
    last (trace st') = Some (EvThread (VStr "1.20.1") (VStr "Notch") (VInt 4)).
Proof.
  destruct (launch_saves_settings_before_thread sample_data sample_state)
    as (st' & Hrun & _ & Hname & Hram & Htrace & _); [reflexivity | reflexivity |].
  exists st'. split; [exact Hrun |]. split; [exact Hname |]. split; [exact Hram |].
  rewrite Htrace. reflexivity.
Defined.

(** * Further properties *)

(** ** ConfigStore: completeness and round trips *)

Lemma default_config_only_keys (k : string) :
  is_Some (default_config !! k) -> k ∈ default_keys.
Proof.
  unfold default_config, default_keys. intros H.
  repeat (rewrite lookup_insert in H; case_decide;
          [subst; set_solver |]).
  rewrite lookup_empty in H. by destruct H.
Qed.

Lemma complete_absorbs_defaults (c : gmap string value) :
  complete c -> c ∪ default_config = c.
Proof.
  intros Hc. apply map_eq. intros k.
  destruct (c !! k) as [v |] eqn:E.
  - by rewrite (lookup_union_Some_l _ _ _ _ E).
  - rewrite lookup_union_r by done.
    destruct (default_config !! k) as [v |] eqn:D; [| done].
    assert (Hk : k ∈ default_keys) by (apply default_config_only_keys; eauto).
    destruct (Hc k Hk) as [v' Hv']. congruence.
Qed.

Lemma load_from_complete (d : option document) : complete (load_from d).
Proof.
  intros k Hk. pose proof (default_config_keys k Hk) as [v Hv].
  destruct d as [[stored | other |] |]; simpl; eauto.
  destruct (stored !! k) as [v' |] eqn:E.
  - rewrite (lookup_union_Some_l _ _ _ _ E). eauto.
  - rewrite lookup_union_r by done. eauto.
Qed.

Lemma complete_insert (k : string) (v : value) (c : gmap string value) :
  complete c -> complete (<[k := v]> c).
Proof.
  intros Hc j Hj. rewrite lookup_insert. case_decide; [eauto | by apply Hc].
Qed.

(** X1: what [save_config] writes is what [load_config] reads back: once
    the write is accepted, loading returns the saved configuration with
    the defaults filled in under it, the configuration itself when it has
    all six default keys; and loading what a load produced changes
    nothing. *)
Theorem save_config_load_config_round_trip (st : launcher) :
  write_error st = None ->
  exists st',
    (save_config ;; load_config) st = Return (config st ∪ default_config) st' /\
    config st' = config st /\
    disk st' = Some (DObject (config st)) /\
    (complete (config st) ->
     (save_config ;; load_config) st = Return (config st) st') /\
    load_from (Some (DObject (load_from (disk st)))) = load_from (disk st).
Proof.
  intros Hw. unfold_py. rewrite Hw. simpl.
  eexists. split; [reflexivity |]. simpl.
  split; [done |]. split; [done |]. split.
  - intros Hc. by rewrite (complete_absorbs_defaults _ Hc).
  - apply complete_absorbs_defaults, load_from_complete.
Qed.

Lemma save_config_load_config_round_trip_witness :
  exists st',
    (save_config ;; load_config) sample_state = Return (config sample_state) st'.
Proof.
  destruct (save_config_load_config_round_trip sample_state)
    as (st' & _ & _ & _ & Hrun & _); [reflexivity |].
  exists st'. apply Hrun. apply load_from_complete.
Defined.

Lemma keeps_complete_refl (st : launcher) : keeps_complete st st.
Proof. by intros H. Qed.

Lemma keeps_complete_trans (a b c : launcher) :
  keeps_complete a b -> keeps_complete b c -> keeps_complete a c.
Proof. unfold keeps_complete. tauto. Qed.

Lemma set_item_keeps_complete (k : string) (v : value) :
  respects keeps_complete (set_item k v).
Proof. intros st Hc. simpl. by apply complete_insert. Qed.

Lemma save_config_keeps_complete : respects keeps_complete save_config.
Proof. intros st Hc. unfold save_config. by destruct (write_error st). Qed.

Lemma update_keeps_complete (k : string) (v : value) :
  respects keeps_complete (set_item k v ;; save_config).
Proof.
  apply respects_bind;
    [exact keeps_complete_trans
    | apply set_item_keeps_complete | intros _; apply save_config_keeps_complete].
Qed.

Ltac solve_keeps_complete :=
  first [ exact keeps_complete_refl | exact keeps_complete_trans
        | unfold keeps_complete, emit, with_ticks, with_disk, with_config,
            with_current_progress, with_max_value; simpl;
          solve [auto using complete_insert] ].

(** X2: the six default keys never disappear.  A launcher fresh from
    [__init__] has them whatever the file holds, and every method that
    touches the configuration (the five setters, the reset, the history
    append, [launch] and the worker) leaves them present when they were
    present, whether the method returns or raises. *)
Theorem default_keys_stay_present (ext : externals) :
  (forall d werr rerr, complete (config (init d werr rerr))) /\
  (forall v, respects keeps_complete (update_username v)) /\
  (forall v, respects keeps_complete (update_ram v)) /\
  (forall v, respects keeps_complete (update_theme v)) /\
  (forall v, respects keeps_complete (update_dark_mode v)) /\
  respects keeps_complete mark_tutorial_complete /\
  respects keeps_complete reset_launcher_data /\
  (forall version username,
      respects keeps_complete (add_launch_history ext version username)) /\
  (forall data, respects keeps_complete (launch data)) /\
  (forall version username ram,
      respects keeps_complete (install_and_launch ext version username ram)).
Proof.
  split; [intros; apply load_from_complete |].
  do 5 (split; [intros; apply update_keeps_complete |]).
  split.
  { intros st Hc. unfold_py.
    destruct st as [w m p c d werr rerr n tr]. simpl in *.
    destruct d as [doc |], rerr as [e |]; simpl.
    all: first [exact Hc | exact (load_from_complete None)]. }
  split.
  { intros version username.
    apply respects_add_launch_history; solve_keeps_complete. }
  split.
  { intros data st. unfold launch.
    destruct (negb _ || negb _).
    - rewrite set_status_returns. destruct (window st); exact (fun H => H).
    - revert st. apply respects_bind;
        [exact keeps_complete_trans | apply update_keeps_complete | intros _].
      apply respects_bind;
        [exact keeps_complete_trans | apply update_keeps_complete | intros _].
      intros st. exact (fun H => H). }
  intros version username ram.
  apply respects_install_and_launch; solve_keeps_complete.
Qed.



(** ** HistoryLog: the bound *)

(** X4: after any non-empty run of appends the history holds
    [min 10 (appends + earlier entries)] entries, never more than ten: the
    new entries newest first, then as many of the earlier ones as still
    fit, in their old order; and the clock has been read once per append. *)
Theorem history_is_bounded (ext : externals) (reqs : list (string * string))
    (st : launcher) (h : list value) :
  config st !! "launch_history" = Some (VList h) ->
  reqs <> [] ->
  exists st' kept,
    append_all ext reqs st = Return tt st' /\
    config st' !! "launch_history" = Some (VList kept) /\
    kept = (take 10 (rev (stamped ext (ticks st) reqs))
            ++ take (10 - length reqs) h)%list /\
    length kept = Nat.min 10 (length reqs + length h) /\
    (length kept <= 10)%nat.
Proof.
  intros Hh Hne.
  destruct (append_all_history ext reqs st h Hh) as (st' & Hrun & Hcfg).
  destruct reqs as [| r rest]; [done |].
  exists st', (take 10 (rev (stamped ext (ticks st) (r :: rest)) ++ h)).
  split; [done |]. split; [done |].
  pose proof (length_stamped ext (r :: rest) (ticks st)) as Hs.
  split.
  - by rewrite take_app, length_rev, Hs.
  - rewrite length_take, length_app, length_rev, Hs. lia.
Qed.

Lemma history_is_bounded_witness :
  exists st' kept,
    append_all sample_ext sample_requests sample_state = Return tt st' /\
    config st' !! "launch_history" = Some (VList kept) /\
    length kept = 10%nat.
Proof.
  destruct (history_is_bounded sample_ext sample_requests sample_state [])
    as (st' & kept & Hrun & Hcfg & _ & Hlen & _); [reflexivity | discriminate |].
  exists st', kept. split; [exact Hrun |]. split; [exact Hcfg |]. exact Hlen.
Defined.

(** ** LaunchSession: when a thread is started *)

Lemma threads_snoc (tr : list event) (e : event) :
  threads (tr ++ [e]) = (threads tr + (if is_thread e then 1 else 0))%nat.
Proof.
  unfold threads. rewrite List.filter_app, length_app. f_equal.
  cbn. by destruct (is_thread e).
Qed.

(** X5: [launch] never raises, and it starts a worker thread exactly when
    the version and the username of the request are both truthy: one
    thread then, with the submitted version, username and RAM (2 when the
    request has none); otherwise no thread, and the configuration and the
    file are as before.  Nothing checks that the values are strings or
    that the RAM is a number. *)
Theorem launch_starts_thread_iff_valid (data : gmap string value) (st : launcher) :
  let version := dict_get data "version" VNone in
  let username := dict_get data "username" VNone in
  let ram := dict_get data "ram" (VInt 2) in
  exists st',
    launch data st = Return tt st' /\
    if truthy version && truthy username
    then threads (trace st') = S (threads (trace st)) /\
         last (trace st') = Some (EvThread version username ram)
    else threads (trace st') = threads (trace st) /\
         config st' = config st /\ disk st' = disk st.
Proof.
  intros version username ram. unfold launch. fold version username ram.
  destruct (truthy version), (truthy username); simpl.
  - unfold_py. destruct st as [w m p c d werr rerr n tr]. simpl.
    destruct werr; simpl; eexists; (split; [reflexivity |]); simpl;
      rewrite !threads_snoc; simpl; (split; [lia | apply last_snoc]).
  - rewrite set_status_returns. eexists. split; [reflexivity |].
    destruct (window st); simpl; rewrite ?threads_snoc; simpl; repeat split; lia.
  - rewrite set_status_returns. eexists. split; [reflexivity |].
    destruct (window st); simpl; rewrite ?threads_snoc; simpl; repeat split; lia.
  - rewrite set_status_returns. eexists. split; [reflexivity |].
    destruct (window st); simpl; rewrite ?threads_snoc; simpl; repeat split; lia.
Qed.

(** ** ProgressBridge: further edges *)

(** X6: a maximum that is zero or negative silences the bridge again:
    after [set_max(m)] with [m <= 0], any number of [set_progress] calls
    return normally and send nothing, whatever the maximum was before. *)
Theorem set_max_nonpositive_silences (m : Z) (vs : list Z) (st : launcher) :
  m <= 0 ->
  exists st',
    (set_max m ;; set_progress_all vs) st = Return tt st' /\
    trace st' = trace st /\ config st' = config st /\ max_value st' = m.
Proof.
  intros Hm.
  destruct (set_progress_all_without_max vs (with_max_value m st))
    as (st' & Hrun & Htr & Hmax & _ & Hcfg & _); [simpl; lia |].
  exists st'. split; [exact Hrun |]. by repeat split.
Qed.

Lemma set_max_nonpositive_silences_witness :
  exists st',
    (set_max (-1) ;; set_progress_all [5; 7])
      (with_max_value 10 sample_state) = Return tt st' /\
    trace st' = [].
Proof.
  destruct (set_max_nonpositive_silences (-1) [5; 7] (with_max_value 10 sample_state))
    as (st' & Hrun & Htr & _); [lia |].
  exists st'. split; [exact Hrun | exact Htr].
Defined.

(** ** LaunchSession: after the install call *)

(** With the command built and the process spawned, the rest of the [try]
    block is the history append, run in the state reached by then. *)
Lemma launch_phase_spawned (ext : externals) (version username : string) (ram : Z)
    (cmd : list string) (s1 : launcher) :
  get_minecraft_command ext version (launch_options username ram) = inr cmd ->
  popen ext cmd = None ->
  exists s2,
    launch_phase ext version username ram s1 =
      add_launch_history ext version username s2 /\
    same_store s1 s2 /\
    trace s2 =
      (trace s1
       ++ js_if (window s1)
            (update_status_js ("Minecraft " +:+ version +:+ " installed successfully!"))
       ++ js_if (window s1)
            (update_status_js ("Launching Minecraft " +:+ version +:+ "..."))
       ++ [EvCommand version (launch_options username ram); EvPopen cmd]
       ++ js_if (window s1) (update_status_js "Minecraft launched successfully!"))%list.
Proof.
  intros Hcmd Hpopen. unfold launch_phase, command, spawn, bind, modify.
  rewrite !set_status_returns. rewrite Hcmd. unfold ret.
  rewrite Hpopen. rewrite set_status_returns.
  eexists. split; [reflexivity |].
  destruct s1 as [w m p c d werr rerr n tr]; destruct w; simpl;
    rewrite <- ?app_assoc; simpl; by repeat split.
Qed.

Lemma add_launch_history_trace (ext : externals) (version username : string)
    (s : launcher) (h : list value) :
  config s !! "launch_history" = Some (VList h) ->
  let kept := take 10 (history_entry version username (isoformat_now ext (ticks s)) :: h) in
  let c' := <["launch_history" := VList kept]> (config s) in
  exists st',
    add_launch_history ext version username s = Return tt st' /\
    config st' = c' /\
    trace st' = (trace s ++ [save_event s c']
                 ++ js_if (window s) (load_history_js ext (VList kept)))%list.
Proof.
  intros Hh. unfold add_launch_history, set_item, save_config, save_event,
    evaluate_js, bind, gets, modify, when, ret.
  simpl. rewrite Hh.
  destruct s as [w m p c d werr rerr n tr]; simpl in *.
  destruct werr, w; simpl; eexists; (split; [reflexivity |]); simpl;
    rewrite <- ?app_assoc; by split.
Qed.

(** X7: the success path.  When the install call returns, the command is
    built and the process is spawned, and the stored history is a list,
    the worker ends normally with the new entry, stamped with the clock,
    in front of the history cut to ten, every other setting unchanged; the
    window has been told, in this order, that the version is installed,
    that it is launching and that it launched, the command was built
    before the spawn, and the history was saved and sent to the page
    last. *)
Theorem successful_launch_is_recorded (ext : externals) (version username : string)
    (ram : Z) (cmd : list string) (h : list value) (st s1 : launcher) :
  install_phase ext version st = Return tt s1 ->
  get_minecraft_command ext version (launch_options username ram) = inr cmd ->
  popen ext cmd = None ->
  config st !! "launch_history" = Some (VList h) ->
  let kept := take 10 (history_entry version username (isoformat_now ext (ticks st)) :: h) in
  let c' := <["launch_history" := VList kept]> (config st) in
  exists st',
    install_and_launch ext version username ram st = Return tt st' /\
    config st' = c' /\
    trace st' =
      (trace s1
       ++ js_if (window st)
            (update_status_js ("Minecraft " +:+ version +:+ " installed successfully!"))
       ++ js_if (window st)
            (update_status_js ("Launching Minecraft " +:+ version +:+ "..."))
       ++ [EvCommand version (launch_options username ram); EvPopen cmd]
       ++ js_if (window st) (update_status_js "Minecraft launched successfully!")
       ++ [save_event st c']
       ++ js_if (window st) (load_history_js ext (VList kept)))%list.
Proof.
  intros Hphase Hcmd Hpopen Hh kept c'.
  pose proof (install_phase_same_store ext version st) as Hs1.
  rewrite Hphase in Hs1. simpl in Hs1.
  destruct (launch_phase_spawned ext version username ram cmd s1 Hcmd Hpopen)
    as (s2 & Hlaunch & Hs2 & Htr2).
  destruct Hs1 as (Hc1 & Hd1 & Hw1 & He1 & _ & Ht1).
  destruct Hs2 as (Hc2 & Hd2 & Hw2 & He2 & _ & Ht2).
  assert (Hh2 : config s2 !! "launch_history" = Some (VList h))
    by (by rewrite Hc2, Hc1).
  destruct (add_launch_history_trace ext version username s2 h Hh2)
    as (st' & Hadd & Hcfg & Htr).
  exists st'.
  unfold install_and_launch, try_except.
  rewrite body_split, Hphase, Hlaunch, Hadd.
  split; [reflexivity |].
  unfold save_event in *.
  rewrite Hcfg, Htr, Htr2, Hc2, Hc1, Ht2, Ht1, Hw2, Hw1, He2, He1.
  split; [reflexivity |]. by rewrite <- !app_assoc.
Qed.

Lemma successful_launch_is_recorded_witness :
  exists st',
    install_and_launch sample_ext "1.20.1" "Notch" 4 sample_state = Return tt st' /\
    config st' !! "launch_history" =
      Some (VList [history_entry "1.20.1" "Notch" "t0"]).
Proof.
  destruct (successful_launch_is_recorded sample_ext "1.20.1" "Notch" 4
              ["java"; "-Xmx4G"; "-Xms2G"; "1.20.1"] [] sample_state
              (state_of (install_phase sample_ext "1.20.1" sample_state)))
    as (st' & Hrun & Hcfg & _); [reflexivity | reflexivity | reflexivity | reflexivity |].
  exists st'. split; [exact Hrun |]. rewrite Hcfg. reflexivity.
Defined.

(** X8: when [Popen] raises [e], the command has been built and the spawn
    attempted, but nothing is recorded: the worker ends normally, the
    configuration and the file are as before, the clock has not been
    read, and the last thing sent to the window is
    [updateStatus("Error: " + e)]. *)
Theorem spawn_failure_is_not_recorded (ext : externals) (version username : string)
    (ram : Z) (cmd : list string) (e : string) (st s1 : launcher) :
  install_phase ext version st = Return tt s1 ->
  get_minecraft_command ext version (launch_options username ram) = inr cmd ->
  popen ext cmd = Some e ->
  exists st',
    install_and_launch ext version username ram st = Return tt st' /\
    config st' = config st /\ disk st' = disk st /\ ticks st' = ticks st /\
    trace st' =
      (trace s1
       ++ js_if (window st)
            (update_status_js ("Minecraft " +:+ version +:+ " installed successfully!"))
       ++ js_if (window st)
            (update_status_js ("Launching Minecraft " +:+ version +:+ "..."))
       ++ [EvCommand version (launch_options username ram); EvPopen cmd]
       ++ js_if (window st) (update_status_js ("Error: " +:+ e)))%list.
Proof.
  intros Hphase Hcmd Hpopen.
  pose proof (install_phase_same_store ext version st) as Hs1.
  rewrite Hphase in Hs1. simpl in Hs1.
  destruct Hs1 as (Hc1 & Hd1 & Hw1 & He1 & _ & Ht1).
  unfold install_and_launch, try_except.
  rewrite body_split, Hphase.
  unfold launch_phase, command, spawn, bind, modify.
  rewrite !set_status_returns. rewrite Hcmd. unfold ret. rewrite Hpopen.
  unfold raise. rewrite set_status_returns.
  eexists. split; [reflexivity |].
  rewrite <- Hc1, <- Hd1, <- Ht1, <- Hw1.
  destruct s1 as [w m p c d werr rerr n tr]; destruct w; simpl;
    rewrite <- ?app_assoc; simpl; by repeat split.
Qed.

Lemma spawn_failure_is_not_recorded_witness :
  exists st',
    install_and_launch spawn_failing_ext "1.20.1" "Notch" 4 sample_state
      = Return tt st' /\
    config st' = config sample_state /\
    last (trace st') =
      Some (EvJs (update_status_js "Error: [Errno 2] No such file or directory")).
Proof.
  destruct (spawn_failure_is_not_recorded spawn_failing_ext "1.20.1" "Notch" 4
              ["java"] "[Errno 2] No such file or directory" sample_state
              (state_of (install_phase spawn_failing_ext "1.20.1" sample_state)))
    as (st' & Hrun & Hcfg & _ & _ & Htr); [reflexivity | reflexivity | reflexivity |].
  exists st'. split; [exact Hrun |]. split; [exact Hcfg |].
  rewrite Htr. reflexivity.
Defined.

Lemma add_launch_history_not_a_list (ext : externals) (version username : string)
    (s : launcher) (v : value) :
  config s !! "launch_history" = Some v ->
  not_a_list v ->
  add_launch_history ext version username s =
    Raise (sq +:+ type_name v +:+ sq +:+ " object has no attribute "
             +:+ sq +:+ "insert" +:+ sq)
          (with_ticks (S (ticks s)) s).
Proof.
  intros Hv Hnl. unfold add_launch_history, bind, gets, modify. simpl.
  rewrite Hv. by destruct v.
Qed.

(** X9: a stored history that is no list (the file may hold anything under
    [launch_history]; loading does not check it) makes a launch that
    worked look failed: the process has been spawned and the window told
    that Minecraft launched, then the append raises [AttributeError] and
    the last status is the error text; nothing is recorded or saved. *)
Theorem unusable_history_reports_error_after_spawn (ext : externals)
    (version username : string) (ram : Z) (cmd : list string) (v : value)
    (st s1 : launcher) :
  install_phase ext version st = Return tt s1 ->
  get_minecraft_command ext version (launch_options username ram) = inr cmd ->
  popen ext cmd = None ->
  config st !! "launch_history" = Some v ->
  not_a_list v ->
  let e := sq +:+ type_name v +:+ sq +:+ " object has no attribute "
             +:+ sq +:+ "insert" +:+ sq in
  exists st',
    install_and_launch ext version username ram st = Return tt st' /\
    config st' = config st /\ disk st' = disk st /\
    trace st' =
      (trace s1
       ++ js_if (window st)
            (update_status_js ("Minecraft " +:+ version +:+ " installed successfully!"))
       ++ js_if (window st)
            (update_status_js ("Launching Minecraft " +:+ version +:+ "..."))
       ++ [EvCommand version (launch_options username ram); EvPopen cmd]
       ++ js_if (window st) (update_status_js "Minecraft launched successfully!")
       ++ js_if (window st) (update_status_js ("Error: " +:+ e)))%list.
Proof.
  intros Hphase Hcmd Hpopen Hv Hnl e.
  pose proof (install_phase_same_store ext version st) as Hs1.
  rewrite Hphase in Hs1. simpl in Hs1.
  destruct (launch_phase_spawned ext version username ram cmd s1 Hcmd Hpopen)
    as (s2 & Hlaunch & Hs2 & Htr2).
  destruct Hs1 as (Hc1 & Hd1 & Hw1 & He1 & _ & Ht1).
  destruct Hs2 as (Hc2 & Hd2 & Hw2 & He2 & _ & Ht2).
  unfold install_and_launch, try_except.
  rewrite body_split, Hphase, Hlaunch.
  assert (Hv2 : config s2 !! "launch_history" = Some v) by (by rewrite Hc2, Hc1).
  rewrite (add_launch_history_not_a_list ext version username s2 v Hv2 Hnl).
  rewrite set_status_returns.
  eexists. split; [reflexivity |].
  rewrite Hw1 in Htr2.
  destruct s2 as [w m p c d werr rerr n tr]. simpl in *. subst.
  rewrite !Hw1. rewrite <- Hc1, <- Hd1.
  destruct (window st); simpl; rewrite <- ?app_assoc; simpl; by repeat split.
Qed.

Lemma unusable_history_reports_error_after_spawn_witness :
  exists st',
    install_and_launch sample_ext "1.20.1" "Notch" 4 broken_history_state
      = Return tt st' /\
    config st' = config broken_history_state /\
    last (trace st') =
      Some (EvJs (update_status_js
                    ("Error: " +:+ sq +:+ "NoneType" +:+ sq
                       +:+ " object has no attribute " +:+ sq +:+ "insert" +:+ sq))).
Proof.
  destruct (unusable_history_reports_error_after_spawn sample_ext "1.20.1" "Notch" 4
              ["java"; "-Xmx4G"; "-Xms2G"; "1.20.1"] VNone broken_history_state
              (state_of (install_phase sample_ext "1.20.1" broken_history_state)))
    as (st' & Hrun & Hcfg & _ & Htr);
    [reflexivity | reflexivity | reflexivity | reflexivity | exact I |].
  exists st'. split; [exact Hrun |]. split; [exact Hcfg |].
  rewrite Htr. reflexivity.
Defined.

(** ** ProgressBridge: the sign of the percentage *)

Lemma binary_round_aux_nonneg (mx ex : Z) (lx : location) :
  nonneg_float (binary_round_aux Float64.prec Float64.emax false mx ex lx).
Proof.
  unfold binary_round_aux.
  destruct (shr_fexp _ _ mx ex lx) as [mrs' e'].
  destruct (shr_fexp _ _ _ e' loc_Exact) as [mrs'' e''].
  destruct (shr_m mrs''); simpl; try done.
  by destruct (Z.leb _ _).
Qed.

Lemma to_int_nonneg (x : spec_float) (p : Z) :
  nonneg_float x -> Float64.to_int x = inr p -> 0 <= p.
Proof.
  destruct x as [s | s | | s m e]; simpl; try congruence.
  - intros _ [= <-]. lia.
  - destruct s; [done |]. intros _ [= <-].
    destruct e; [ apply Z.shiftl_nonneg | apply Z.shiftl_nonneg
                | apply Z.shiftr_nonneg ]; lia.
Qed.

Lemma percentage_of_zero (m : Z) : 0 < m -> percentage_of 0 m = inr 0.
Proof. destruct m; try lia. reflexivity. Qed.

Lemma percentage_of_nonneg (v m p : Z) :
  0 <= v -> 0 < m -> percentage_of v m = inr p -> 0 <= p.
Proof.
  intros Hv Hm. destruct m as [| b |]; try lia.
  destruct v as [| a |]; try lia.
  - rewrite percentage_of_zero by lia. intros [= <-]. lia.
  - unfold percentage_of, Float64.truediv, Float64.of_int, SFdiv.
    destruct (SFdiv_core_binary _ _ (Z.pos a) 0 (Z.pos b) 0) as [[mz ez] lz].
    pose proof (binary_round_aux_nonneg mz ez lz) as Hq. simpl xorb.
    destruct (binary_round_aux _ _ false mz ez lz) as [s | s | | s mq eq];
      try discriminate.
    + simpl. intros [= <-]. lia.
    + destruct s; [done |].
      assert (Hh : Float64.hundred = S754_finite false 7036874417766400 (-46))
        by (vm_compute; reflexivity).
      unfold Float64.mul. rewrite Hh. unfold SFmul. simpl xorb.
      apply to_int_nonneg, binary_round_aux_nonneg.
Qed.

(** X10: the percentage never has the wrong sign.  For a progress value
    [v >= 0] and a positive maximum, a report that is sent carries a
    percentage [p >= 0] together with [v] and the maximum, and a report
    that is not sent (the call raises [OverflowError]) sends nothing;
    progress 0 is always reported as 0 per cent. *)
Theorem percentage_is_never_negative (v m : Z) (st : launcher) :
  0 <= v -> 0 < m ->
  percentage_of 0 m = inr 0 /\
  match set_progress v (with_max_value m (with_window true st)) with
  | Return _ st' =>
      exists p, 0 <= p /\ percentage_of v m = inr p /\
                trace st' = (trace st ++ [EvJs (update_progress_js p v m)])%list
  | Raise e st' => percentage_of v m = inl e /\ trace st' = trace st
  end.
Proof.
  intros Hv Hm. split; [by apply percentage_of_zero |].
  unfold_py. simpl. destruct (0 <? m) eqn:E; [| lia]. simpl.
  destruct (percentage_of v m) as [e | p] eqn:Hp; simpl; [done |].
  exists p. split; [by apply (percentage_of_nonneg v m) | done].
Qed.

Lemma percentage_is_never_negative_witness :
  set_progress 29 (with_max_value 100 (with_window true sample_state)) =
    Return tt (emit (EvJs (update_progress_js 28 29 100))
                 (with_current_progress 29
                    (with_max_value 100 (with_window true sample_state)))) /\
  percentage_of 0 100 = inr 0.
Proof.
  destruct (percentage_is_never_negative 29 100 sample_state) as [H0 _]; [lia | lia |].
  split; [reflexivity | exact H0].
Defined.

(** ** get_versions *)

Lemma elem_of_ids_of_type (kind id : string) (av : list version_info) :
  id ∈ ids_of_type kind av <->
  exists v, v ∈ av /\ vid v = id /\ vtype v = kind.
Proof.
  unfold ids_of_type. rewrite list_elem_of_In, in_map_iff. split.
  - intros (v & Hid & Hin). apply filter_In in Hin as [Hin Hk].
    exists v. rewrite list_elem_of_In. by apply String.eqb_eq in Hk.
  - intros (v & Hin & Hid & Hk). exists v. split; [done |].
    apply filter_In. rewrite <- list_elem_of_In. split; [done |].
    by apply String.eqb_eq.
Qed.

Lemma ids_of_type_sublist (kind : string) (av : list version_info) :
  ids_of_type kind av `sublist_of` map vid av.
Proof.
  unfold ids_of_type. induction av as [| v rest IH]; simpl; [constructor |].
  destruct (String.eqb (vtype v) kind); simpl.
  - by apply sublist_skip.
  - by apply sublist_cons.
Qed.

Lemma get_versions_lengths (av : list version_info) :
  (length (ids_of_type "release" av) + length (ids_of_type "snapshot" av)
   + length (ids_of_type "old_beta" av) + length (ids_of_type "old_alpha" av)
   + length (other_versions av) = length av)%nat.
Proof.
  unfold ids_of_type, other_versions. rewrite !length_map.
  induction av as [| v rest IH]; simpl; [done |].
  destruct (String.eqb (vtype v) "release") eqn:E1;
    [apply String.eqb_eq in E1; rewrite E1; simpl; lia |].
  destruct (String.eqb (vtype v) "snapshot") eqn:E2;
    [apply String.eqb_eq in E2; rewrite E2; simpl; lia |].
  destruct (String.eqb (vtype v) "old_beta") eqn:E3;
    [apply String.eqb_eq in E3; rewrite E3; simpl; lia |].
  destruct (String.eqb (vtype v) "old_alpha") eqn:E4; simpl; lia.
Qed.

(** X11: [get_versions] sorts the library's list into its four keys
    without losing, inventing or reordering anything: an id is under a key
    exactly when some listed version has that id and that type, each list
    keeps the order of the library's list, every version of one of the
    four types is counted once, and versions of any other type are
    dropped. *)
Theorem get_versions_partitions (av : list version_info) :
  map fst (get_versions av) = ["release"; "snapshot"; "old_beta"; "old_alpha"] /\
  (forall kind ids, (kind, ids) ∈ get_versions av ->
     (forall id, id ∈ ids <-> exists v, v ∈ av /\ vid v = id /\ vtype v = kind) /\
     ids `sublist_of` map vid av) /\
  (foldr (fun entry n => (length (snd entry) + n)%nat) 0%nat (get_versions av)
   + length (other_versions av) = length av)%nat.
Proof.
  split; [reflexivity |]. split.
  - intros kind ids Hin. unfold get_versions in Hin.
    rewrite !elem_of_cons, elem_of_nil in Hin.
    destruct Hin as [[= -> ->] | [[= -> ->] | [[= -> ->] | [[= -> ->] | []]]]];
      (split; [intros id; apply elem_of_ids_of_type | apply ids_of_type_sublist]).
  - pose proof (get_versions_lengths av). simpl. lia.
Qed.

(** ** delete_minecraft_instances *)

(** X12: [delete_minecraft_instances] succeeds exactly when the system
    refuses none of the directories that exist; after a success none of
    the three exists, and a second call succeeds again whatever the system
    would refuse; in every case the reply is the success one or a failure
    carrying the refusal, and no directory exists afterwards that did not
    exist before. *)
Theorem delete_minecraft_instances_all_or_error
    (refused : instance_dir -> option string) (fs : instances) :
  let '(r, fs') := delete_minecraft_instances refused fs in
  (r = instances_deleted <->
   forall d, dir_exists d fs = true -> refused d = None) /\
  (r = instances_deleted ->
   (forall d, dir_exists d fs' = false) /\
   forall refused', delete_minecraft_instances refused' fs' = (instances_deleted, fs')) /\
  (r = instances_deleted \/
   exists d e, dir_exists d fs = true /\ refused d = Some e /\
               r = reply false ("Error: " +:+ e)) /\
  (forall d, dir_exists d fs' = true -> dir_exists d fs = true).
Proof.
  unfold delete_minecraft_instances, rmtree_if_exists, instances_deleted.
  destruct fs as [[] [] []]; simpl;
    destruct (refused Versions) as [e1 |] eqn:E1;
    destruct (refused Libraries) as [e2 |] eqn:E2;
    destruct (refused Assets) as [e3 |] eqn:E3; simpl.
  all: split; [split;
         [ first [ discriminate
                 | intros _ d Hd; destruct d; simpl in Hd; congruence ]
         | first [ done
                 | intros H;
                   first [ specialize (H Versions eq_refl); congruence
                         | specialize (H Libraries eq_refl); congruence
                         | specialize (H Assets eq_refl); congruence ] ] ] |].
  all: split; [ first [ discriminate
                      | intros _; split; [intros d; by destruct d | done] ] |].
  all: split; [| intros d; destruct d; simpl; congruence ].
  all: first [ by left
             | right; exists Versions; eexists; simpl; by repeat split
             | right; exists Libraries; eexists; simpl; by repeat split
             | right; exists Assets; eexists; simpl; by repeat split ].
Qed.

(** X13: a refusal part of the way leaves the work half done.  When the
    versions directory can be removed (or is absent) and the system
    refuses to remove an existing libraries directory with [e], the reply
    is the failure [Error: e], the versions directory is gone all the
    same, and the assets directory is not touched. *)
Theorem delete_minecraft_instances_stops_at_refusal
    (refused : instance_dir -> option string) (e : string) (fs : instances) :
  refused Versions = None ->
  libraries_dir fs = true ->
  refused Libraries = Some e ->
  delete_minecraft_instances refused fs =
    (reply false ("Error: " +:+ e), remove_dir Versions fs) /\
  assets_dir (snd (delete_minecraft_instances refused fs)) = assets_dir fs.
Proof.
  intros Hv Hl He.
  unfold delete_minecraft_instances, rmtree_if_exists.
  destruct fs as [v l a]. simpl in *. subst l. rewrite Hv, He.
  by destruct v.
Qed.

Lemma delete_minecraft_instances_stops_at_refusal_witness :
  delete_minecraft_instances refuse_libraries (Instances true true true) =
    (reply false "Error: Access is denied", Instances false true true).
Proof.
  apply (delete_minecraft_instances_stops_at_refusal refuse_libraries
           "Access is denied" (Instances true true true)); reflexivity.
Defined.

(** ** get_uuid *)

(** X14: the launcher's [get_uuid] is the script's [get_uuid] of
    [tests.py] with every exception turned into [None]: where the script
    returns a value the launcher returns the same value, where the script
    raises (the request fails, the body is no JSON, is no object or has no
    [id]) the launcher returns [None]; so anything but [None] comes from a
    200 response whose object holds it under [id].  The script prints its
    complaint exactly for a status other than 200. *)
Theorem get_uuid_swallows_what_the_script_raises (r : http_reply) :
  (forall out v, Tests.get_uuid r = (out, inr v) -> get_uuid r = v) /\
  (forall out e, Tests.get_uuid r = (out, inl e) -> get_uuid r = VNone) /\
  (get_uuid r <> VNone ->
   exists m, r = HttpResponse 200 (DObject m) /\ m !! "id" = Some (get_uuid r)) /\
  (fst (Tests.get_uuid r) = ["Invalid username!"] <->
   exists status_code body, r = HttpResponse status_code body /\ status_code <> 200).
Proof.
  unfold get_uuid, Tests.get_uuid.
  destruct r as [e | status_code body].
  - split; [intros out v [=] |]. split; [done |].
    split; [done |]. split; [intros [=] | intros (s & b & [=] & _)].
  - destruct (status_code =? 200) eqn:E.
    + apply Z.eqb_eq in E. subst status_code.
      assert (Hno : fst (@pair (list string) (lookup_error + value) [] (json_id body))
                      = ["Invalid username!"] <->
                    exists s b, HttpResponse 200 body = HttpResponse s b /\ s <> 200).
      { split; [intros [=] | intros (s & b & [= <- _] & Hs); done]. }
      split; [intros out v [= _ ->]; reflexivity |].
      split; [intros out e [= _ ->]; reflexivity |].
      split; [| exact Hno].
      destruct body as [m | other |]; simpl; try done.
      destruct (m !! "id") as [v |] eqn:Hid; simpl; [| done].
      intros _. by exists m.
    + apply Z.eqb_neq in E.
      split; [intros out v [= _ <-]; reflexivity |].
      split; [intros out e [=] |].
      split; [done |].
      split; [intros _; by exists status_code, body | reflexivity].
Qed.
